(** * PubMed paper fetcher: a shallow embedding and its properties

    The development follows [pubmed_paper_fetcher/utils.py] (the affiliation
    classifier) and [pubmed_paper_fetcher/fetcher.py] (record extraction and
    the query pipeline).

    Modelling conventions.
    - A Python [str] is a [string]; the text is taken to be ASCII, so
      [str.lower] maps 'A'..'Z' to 'a'..'z' and leaves every other
      character alone, and the regular-expression class [\w] is
      [[a-zA-Z0-9_]].
    - A Python [dict] read with [d.get(k, default)] or tested with [k in d]
      is a record of [option] fields, [None] standing for an absent key;
      [d[k]] on an absent key raises [KeyError].
    - A Python [set] built from a list is modelled by its iteration
      sequence, about which only the set laws are known ([PySet]).
    - The Entrez services, the logging configuration and the emitted log
      records are threaded through an explicit state; exceptions are the
      left summand of the result. *)

From Stdlib Require Import String Ascii List Bool Arith Lia Permutation.
Import ListNotations.

Local Open Scope string_scope.
Local Open Scope list_scope.
Local Open Scope nat_scope.

(** ** Python string primitives *)

Module Py.

(** [c.lower()] on one ASCII character. *)
Definition lower_char (c : ascii) : ascii :=
  let n := nat_of_ascii c in
  if (65 <=? n) && (n <=? 90) then ascii_of_nat (n + 32) else c.

(** [c.upper()] on one ASCII character. *)
Definition upper_char (c : ascii) : ascii :=
  let n := nat_of_ascii c in
  if (97 <=? n) && (n <=? 122) then ascii_of_nat (n - 32) else c.

(** [s.lower()] *)
Fixpoint lower (s : string) : string :=
  match s with
  | EmptyString => EmptyString
  | String c s' => String (lower_char c) (lower s')
  end.

(** [s.upper()] *)
Fixpoint upper (s : string) : string :=
  match s with
  | EmptyString => EmptyString
  | String c s' => String (upper_char c) (upper s')
  end.

(** [s.startswith(k)] *)
Fixpoint startswith (k s : string) : bool :=
  match k with
  | EmptyString => true
  | String a k' =>
      match s with
      | EmptyString => false
      | String b s' => Ascii.eqb a b && startswith k' s'
      end
  end.

(** [k in s] for two strings: [k] occurs at some offset of [s]. *)
Fixpoint contains (k s : string) : bool :=
  startswith k s ||
  match s with
  | EmptyString => false
  | String _ s' => contains k s'
  end.

(** [any(p(k) for k in ks)] *)
Definition any {A : Type} (p : A -> bool) (ks : list A) : bool := existsb p ks.

(** Characters removed by [str.strip()] with no argument (ASCII range):
    tab, newline, vertical tab, form feed, carriage return, the four
    separators 0x1c-0x1f, and the space. *)
Definition is_space (c : ascii) : bool :=
  let n := nat_of_ascii c in
  ((9 <=? n) && (n <=? 13)) || ((28 <=? n) && (n <=? 32)).

Fixpoint lstrip (s : string) : string :=
  match s with
  | EmptyString => EmptyString
  | String c s' => if is_space c then lstrip s' else s
  end.

Fixpoint rstrip (s : string) : string :=
  match s with
  | EmptyString => EmptyString
  | String c s' =>
      match rstrip s' with
      | EmptyString => if is_space c then EmptyString else String c EmptyString
      | r => String c r
      end
  end.

(** [s.strip()] *)
Definition strip (s : string) : string := lstrip (rstrip s).

(** [sep.join(parts)] *)
Definition join (sep : string) (parts : list string) : string :=
  String.concat sep parts.

(** Truth value of a [str] in a condition: non-empty. *)
Definition truthy (s : string) : bool :=
  match s with
  | EmptyString => false
  | String _ _ => true
  end.

(** [d.get(k, "")] on an optional string field. *)
Definition get_str (v : option string) : string :=
  match v with
  | Some s => s
  | None => EmptyString
  end.

(** [s.split(sep)] for a one-character separator. *)
Fixpoint split (sep : ascii) (s : string) : list string :=
  match s with
  | EmptyString => [EmptyString]
  | String c s' =>
      match split sep s' with
      | seg :: segs =>
          if Ascii.eqb c sep then EmptyString :: seg :: segs
          else String c seg :: segs
      | [] => []
      end
  end.

(** [s.count(c)] for a one-character argument. *)
Fixpoint count (c : ascii) (s : string) : nat :=
  match s with
  | EmptyString => 0
  | String d s' => (if Ascii.eqb d c then 1 else 0) + count c s'
  end.

End Py.

(** ** The regular expression [[\w\.-]+@[\w\.-]+] *)

Module Re.

(** [\w] on ASCII text. *)
Definition is_word (c : ascii) : bool :=
  let n := nat_of_ascii c in
  ((48 <=? n) && (n <=? 57)) || ((65 <=? n) && (n <=? 90)) ||
  ((97 <=? n) && (n <=? 122)) || (n =? 95).

(** The character class [[\w\.-]]. *)
Definition in_class (c : ascii) : bool :=
  is_word c || (nat_of_ascii c =? 46) || (nat_of_ascii c =? 45).

(** Every character of [s] is in the class. *)
Fixpoint all_class (s : string) : bool :=
  match s with
  | EmptyString => true
  | String c s' => in_class c && all_class s'
  end.

(** Longest prefix made of class characters, and what follows it. *)
Fixpoint span_class (s : string) : string * string :=
  match s with
  | EmptyString => (EmptyString, EmptyString)
  | String c s' =>
      if in_class c then
        let (run, rest) := span_class s' in (String c run, rest)
      else (EmptyString, s)
  end.

(** A match anchored at the first character.  The greedy [[..]+] takes
    the whole run of class characters; giving characters back cannot
    help, because the character after a shorter run is a class character
    and ['@'] is not one.  The second [[..]+] is greedy and last. *)
Definition match_here (s : string) : option string :=
  match span_class s with
  | (String c run, String at_sign rest) =>
      if (nat_of_ascii at_sign =? 64) then
        match fst (span_class rest) with
        | EmptyString => None
        | dom => Some (String c run ++ String at_sign dom)%string
        end
      else None
  | _ => None
  end.

(** [re.search(r"[\w\.-]+@[\w\.-]+", s)]: the match at the leftmost
    offset where one exists; [Some m] carries [match.group(0)]. *)
Fixpoint search (s : string) : option string :=
  match match_here s with
  | Some m => Some m
  | None =>
      match s with
      | EmptyString => None
      | String _ s' => search s'
      end
  end.

End Re.

(** ** utils.py: the affiliation classifier *)

Definition non_academic_keywords : list string :=
  [ "pharma"; "biotech"; "inc"; "ltd"; "llc"; "gmbh"; "corp"; "co"; "industries";
    "solutions"; "company"; "laboratories"; "lab"; "research institute" ].

Definition academic_keywords : list string :=
  [ "university"; "college"; "school"; "institute of technology"; "faculty";
    "dept"; "department"; "hospital"; "center"; "centre"; "academy" ].

Definition is_non_academic_affiliation (affiliation : string) : bool :=
  let aff := Py.lower affiliation in
  Py.any (fun k => Py.contains k aff) non_academic_keywords &&
  negb (Py.any (fun k => Py.contains k aff) academic_keywords).

(** ** fetcher.py: the data returned by [Entrez.read] *)

(** One element of [author["AffiliationInfo"]]. *)
Record AffiliationInfoT := mkAffiliationInfo { Affiliation : option string }.

(** One element of [article_data["AuthorList"]]; [AffiliationInfo = None]
    is an author without that key. *)
Record AuthorT := mkAuthor {
  AffiliationInfo : option (list AffiliationInfoT);
  ForeName : option string;
  LastName : option string }.

Record PubDateT := mkPubDate {
  Year : option string;
  Month : option string;
  Day : option string }.

Record JournalIssueT := mkJournalIssue { PubDate : option PubDateT }.

Record JournalT := mkJournal { JournalIssue : option JournalIssueT }.

(** [medline["Article"]], the RawCitation of the specification. *)
Record ArticleT := mkArticle {
  ArticleTitle : option string;
  Journal : option JournalT;
  AuthorList : option (list AuthorT) }.

Record MedlineCitationT := mkMedlineCitation { Article : option ArticleT }.

Record PubmedArticleT := mkPubmedArticle {
  MedlineCitation : option MedlineCitationT }.

(** The value of [Entrez.read(handle)] after [efetch]. *)
Record EntrezRecord := mkEntrezRecord {
  PubmedArticle : option (list PubmedArticleT) }.

(** The dictionary returned by [fetch_paper_details]; the six keys are
    "PubmedID", "Title", "Publication Date", "Non-academic Author(s)",
    "Company Affiliation(s)" and "Corresponding Author Email". *)
Record Paper := mkPaper {
  PubmedID : string;
  Title : string;
  Publication_Date : string;
  Non_academic_Authors : string;
  Company_Affiliations : string;
  Corresponding_Author_Email : string }.

(** ** Python sets

    [set(l)] followed by iteration (as [", ".join] does) visits every
    distinct element of [l] once, in an order fixed by the hashes of the
    strings, which Python randomises per process.  [PySet] is one such
    order. *)
Record PySet := mkPySet {
  iter : list string -> list string;
  iter_NoDup : forall l, NoDup (iter l);
  iter_In : forall l x, In x (iter l) <-> In x l }.

(** One admissible order: every element at its last position in [l]. *)
Definition last_seen_order : PySet :=
  {| iter := nodup string_dec;
     iter_NoDup := NoDup_nodup string_dec;
     iter_In := fun l x => nodup_In string_dec l x |}.

(** Another one: the reverse of the former. *)
Definition reversed_order : PySet.
Proof.
  refine {| iter := fun l => rev (nodup string_dec l) |}.
  - intro l. apply NoDup_rev, NoDup_nodup.
  - intros l x. rewrite <- in_rev. apply nodup_In.
Defined.

(** ** fetcher.py: record extraction *)

(** [pub_date = article_data.get("Journal", {}).get("JournalIssue", {})
                            .get("PubDate", {})] *)
Definition pub_date (article_data : ArticleT) : option PubDateT :=
  match Journal article_data with
  | None => None
  | Some journal =>
      match JournalIssue journal with
      | None => None
      | Some issue => PubDate issue
      end
  end.

(** [pub_date.get(field, '')], where an absent [pub_date] is [{}]. *)
Definition pub_date_get (field : PubDateT -> option string)
    (pd : option PubDateT) : string :=
  match pd with
  | None => EmptyString
  | Some d => Py.get_str (field d)
  end.

(** [f"{pub_date.get('Year', '')}-{pub_date.get('Month', '')}-{pub_date.get('Day', '')}"] *)
Definition date_str (article_data : ArticleT) : string :=
  let pd := pub_date article_data in
  (pub_date_get Year pd ++ "-" ++ pub_date_get Month pd ++ "-" ++
   pub_date_get Day pd)%string.

(** The three variables the author loop updates. *)
Record Scan := mkScan {
  non_academic_authors : list string;
  company_affiliations : list string;
  corresponding_email : string }.

Definition scan_init : Scan :=
  {| non_academic_authors := [];
     company_affiliations := [];
     corresponding_email := EmptyString |}.

(** [f"{author.get('ForeName', '')} {author.get('LastName', '')}".strip()] *)
Definition fullname (author : AuthorT) : string :=
  Py.strip (Py.get_str (ForeName author) ++ " " ++
            Py.get_str (LastName author))%string.

(** Body of [for aff in affiliations]. *)
Definition scan_affiliation (author : AuthorT) (st : Scan)
    (aff : AffiliationInfoT) : Scan :=
  let aff_text := Py.get_str (Affiliation aff) in
  if is_non_academic_affiliation aff_text then
    {| non_academic_authors := non_academic_authors st ++ [fullname author];
       company_affiliations := company_affiliations st ++ [aff_text];
       corresponding_email :=
         match Re.search aff_text with
         | Some m => m
         | None => corresponding_email st
         end |}
  else st.

(** Body of [for author in authors]. *)
Definition scan_author (st : Scan) (author : AuthorT) : Scan :=
  match AffiliationInfo author with
  | Some affiliations => fold_left (scan_affiliation author) affiliations st
  | None => st
  end.

(** [authors = article_data.get("AuthorList", [])] and the loop over it. *)
Definition scan_authors (article_data : ArticleT) : Scan :=
  let authors :=
    match AuthorList article_data with
    | Some l => l
    | None => []
    end in
  fold_left scan_author authors scan_init.

(** The two sets handed to [", ".join], as iteration sequences. *)
Definition author_set (S : PySet) (article_data : ArticleT) : list string :=
  iter S (non_academic_authors (scan_authors article_data)).

Definition affiliation_set (S : PySet) (article_data : ArticleT) : list string :=
  iter S (company_affiliations (scan_authors article_data)).

(** [fetch_paper_details] from [article_data] on: the extraction proper. *)
Definition paper_details (S : PySet) (article_data : ArticleT)
    (pmid : string) : Paper :=
  {| PubmedID := pmid;
     Title := Py.get_str (ArticleTitle article_data);
     Publication_Date := date_str article_data;
     Non_academic_Authors := Py.join ", " (author_set S article_data);
     Company_Affiliations := Py.join ", " (affiliation_set S article_data);
     Corresponding_Author_Email :=
       corresponding_email (scan_authors article_data) |}.

(** ** Effects: exceptions, logging, the Entrez services *)

Inductive exn : Type :=
| KeyError (key : string)
| IndexError
| ServiceError (reason : string).

Definition result (A : Type) : Type := (exn + A)%type.

Inductive level : Type := DEBUG | INFO | WARNING | ERROR.

Definition levelno (l : level) : nat :=
  match l with
  | DEBUG => 10
  | INFO => 20
  | WARNING => 30
  | ERROR => 40
  end.

Inductive message : Type :=
| FetchingIds (query : string)
| FoundIds (pmids : list string)
| ErrorFetching (pmid : string) (e : exn).

Definition log_record : Type := (level * message)%type.

(** [d[k]] *)
Definition getitem {A} (key : string) (v : option A) : result A :=
  match v with
  | Some a => inr a
  | None => inl (KeyError key)
  end.

(** [l[0]] *)
Definition first {A} (l : list A) : result A :=
  match l with
  | a :: _ => inr a
  | [] => inl IndexError
  end.

Definition and_then {A B} (r : result A) (k : A -> result B) : result B :=
  match r with
  | inl e => inl e
  | inr a => k a
  end.

(** [article = record["PubmedArticle"][0]],
    [medline = article["MedlineCitation"]],
    [article_data = medline["Article"]]. *)
Definition article_data_of (record : EntrezRecord) : result ArticleT :=
  and_then (getitem "PubmedArticle" (PubmedArticle record)) (fun articles =>
  and_then (first articles) (fun article =>
  and_then (getitem "MedlineCitation" (MedlineCitation article)) (fun medline =>
  getitem "Article" (Article medline)))).

Section Pipeline.

(** The state of the remote database and of the connection to it. *)
Variable World : Type.

(** [Entrez.esearch] + [Entrez.read] + [record["IdList"]]. *)
Variable esearch : string -> nat -> World -> result (list string) * World.

(** [Entrez.efetch] + [Entrez.read]. *)
Variable efetch : string -> World -> result EntrezRecord * World.

Variable S : PySet.

(** [root_level = None]: the root logger has no handler yet. *)
Record state := mkState {
  world : World;
  root_level : option level;
  emitted : list log_record }.

Definition M (A : Type) : Type := state -> result A * state.

Definition ret {A} (a : A) : M A := fun st => (inr a, st).

Definition bind {A B} (m : M A) (k : A -> M B) : M B :=
  fun st =>
    match m st with
    | (inl e, st') => (inl e, st')
    | (inr a, st') => k a st'
    end.

Definition raise {A} (e : exn) : M A := fun st => (inl e, st).

(** [try: body  except Exception as e: handler(e)] *)
Definition try_except {A} (body : M A) (handler : exn -> M A) : M A :=
  fun st =>
    match body st with
    | (inl e, st') => handler e st'
    | (inr a, st') => (inr a, st')
    end.

Notation "x <- m ;; k" := (bind m (fun x => k))
  (at level 61, m at next level, right associativity).
Notation "m ;;; k" := (bind m (fun _ => k))
  (at level 61, right associativity).

(** A call to one of the services. *)
Definition call {A} (f : World -> result A * World) : M A :=
  fun st =>
    let (r, w) := f (world st) in
    (r, {| world := w; root_level := root_level st; emitted := emitted st |}).

(** [logging.basicConfig(level=l)]: no effect once the root logger has a
    handler. *)
Definition basicConfig (l : level) : M unit :=
  fun st =>
    match root_level st with
    | Some _ => (inr tt, st)
    | None =>
        (inr tt, {| world := world st; root_level := Some l;
                    emitted := emitted st |})
    end.

(** [logging.info], [logging.debug], [logging.error]: a root logger
    without handler is first configured at the default level WARNING. *)
Definition log (l : level) (m : message) : M unit :=
  fun st =>
    let root := match root_level st with Some r => r | None => WARNING end in
    (inr tt,
     {| world := world st;
        root_level := Some root;
        emitted := if levelno root <=? levelno l
                   then emitted st ++ [(l, m)] else emitted st |}).

Definition fetch_pubmed_ids (query : string) (retmax : nat) : M (list string) :=
  call (esearch query retmax).

(** A computation that can only raise or return. *)
Definition lift {A} (r : result A) : M A := fun st => (r, st).

Definition fetch_paper_details (pmid : string) : M Paper :=
  record <- call (efetch pmid) ;;
  article_data <- lift (article_data_of record) ;;
  ret (paper_details S article_data pmid).

(** Body of [for pmid in pmids], with [papers] the list built so far. *)
Definition fetch_one (papers : list Paper) (pmid : string) : M (list Paper) :=
  try_except
    (paper <- fetch_paper_details pmid ;;
     ret (if Py.truthy (Non_academic_Authors paper)
          then papers ++ [paper] else papers))
    (fun e => log ERROR (ErrorFetching pmid e) ;;; ret papers).

Fixpoint for_pmids (pmids : list string) (papers : list Paper)
    : M (list Paper) :=
  match pmids with
  | [] => ret papers
  | pmid :: rest =>
      papers' <- fetch_one papers pmid ;;
      for_pmids rest papers'
  end.

Definition fetch_papers (query : string) (debug : bool) : M (list Paper) :=
  (if debug then basicConfig DEBUG else basicConfig INFO) ;;;
  log INFO (FetchingIds query) ;;;
  pmids <- fetch_pubmed_ids query 20 ;;
  log DEBUG (FoundIds pmids) ;;;
  for_pmids pmids [].

End Pipeline.

Arguments mkState {World}.
Arguments world {World}.
Arguments root_level {World}.
Arguments emitted {World}.

Arguments fetch_pubmed_ids {World}.
Arguments fetch_paper_details {World}.
Arguments fetch_one {World}.
Arguments for_pmids {World}.
Arguments fetch_papers {World}.
Arguments basicConfig {World}.
Arguments log {World}.

(** ** Vocabulary of the statements *)

(** [k] occurs in [s] up to the case of the letters of [s]. *)
Definition occurs_ci (k s : string) : Prop :=
  exists pre mid post,
    s = (pre ++ mid ++ post)%string /\ Py.lower mid = k.

(** Two characters that are the same letter, whatever their case. *)
Definition same_letter (c d : ascii) : Prop :=
  d = c \/ d = Py.upper_char c \/ d = Py.lower_char c.

(** Two strings that differ at most by the case of their letters. *)
Inductive case_variant : string -> string -> Prop :=
| cv_empty : case_variant EmptyString EmptyString
| cv_char c d s t :
    same_letter c d -> case_variant s t ->
    case_variant (String c s) (String d t).

(** The affiliation texts of one author, in the order the loop reads them. *)
Definition affiliation_texts (author : AuthorT) : list string :=
  match AffiliationInfo author with
  | Some affiliations =>
      map (fun aff => Py.get_str (Affiliation aff)) affiliations
  | None => []
  end.

Definition authors_of (article_data : ArticleT) : list AuthorT :=
  match AuthorList article_data with
  | Some l => l
  | None => []
  end.

(** All affiliation texts of a record in scanning order: authors in list
    order, and for each author the affiliations in list order. *)
Definition scanned_affiliations (article_data : ArticleT) : list string :=
  flat_map affiliation_texts (authors_of article_data).

(** The email found in one affiliation text, when the text is classified
    non-academic. *)
Definition email_in (aff_text : string) : list string :=
  if is_non_academic_affiliation aff_text then
    match Re.search aff_text with
    | Some m => [m]
    | None => []
    end
  else [].

(** The emails discovered during the scan, in scanning order. *)
Definition discovered_emails (article_data : ArticleT) : list string :=
  flat_map email_in (scanned_affiliations article_data).

(** The names recorded for one author: one per non-academic affiliation. *)
Definition names_of (author : AuthorT) : list string :=
  map (fun _ => fullname author)
      (filter is_non_academic_affiliation (affiliation_texts author)).

(** A publication date component, [None] when the component or any
    dictionary on the way to it is missing. *)
Definition component (field : PubDateT -> option string)
    (article_data : ArticleT) : option string :=
  match Journal article_data with
  | Some (mkJournal (Some (mkJournalIssue (Some d)))) => field d
  | _ => None
  end.

(** A missing component renders as the empty segment. *)
Definition segment (v : option string) : string :=
  match v with
  | Some s => s
  | None => EmptyString
  end.

(** The dash of the date format. *)
Definition dash : ascii := ascii_of_nat 45.

Section Outcomes.

Variable World : Type.
Variable efetch : string -> World -> result EntrezRecord * World.
Variable S : PySet.

(** What one identifier yields, given the answer of the fetch service. *)
Definition details_of (pmid : string) (r : result EntrezRecord)
    : result Paper :=
  and_then r (fun record =>
  and_then (article_data_of record) (fun article_data =>
  inr (paper_details S article_data pmid))).

(** The outcome for each identifier, in order, the fetch service being
    called once per identifier from the world [w] on. *)
Fixpoint fetched (w : World) (pmids : list string)
    : list (string * result Paper) :=
  match pmids with
  | [] => []
  | pmid :: rest =>
      let (r, w') := efetch pmid w in
      (pmid, details_of pmid r) :: fetched w' rest
  end.

End Outcomes.

Arguments fetched {World}.

(** The summaries of the identifiers that did not fail. *)
Definition successes (outcomes : list (string * result Paper)) : list Paper :=
  flat_map (fun o => match snd o with inr paper => [paper] | inl _ => [] end)
           outcomes.

(** The test [if paper["Non-academic Author(s)"]]. *)
Definition qualifying (paper : Paper) : bool :=
  Py.truthy (Non_academic_Authors paper).





(** The non-academic keywords that are not an extension of another one:
    "company" and "corp" hold "co", "laboratories" holds "lab". *)
Definition core_non_academic_keywords : list string :=
  [ "pharma"; "biotech"; "inc"; "ltd"; "llc"; "gmbh"; "co"; "industries";
    "solutions"; "lab"; "research institute" ].

(** [l1] is [l2] with some elements removed. *)
Inductive subsequence {A : Type} : list A -> list A -> Prop :=
| subsequence_nil : subsequence [] []
| subsequence_skip x l1 l2 : subsequence l1 l2 -> subsequence l1 (x :: l2)
| subsequence_keep x l1 l2 : subsequence l1 l2 -> subsequence (x :: l1) (x :: l2).

(** The (name, affiliation) pairs one author contributes. *)
Definition pairs_of (author : AuthorT) : list (string * string) :=
  map (fun aff_text => (fullname author, aff_text))
      (filter is_non_academic_affiliation (affiliation_texts author)).

(** The error records of the identifiers that failed. *)
Definition failure_records (outcomes : list (string * result Paper))
    : list log_record :=
  flat_map (fun o => match snd o with
                     | inl e => [(ERROR, ErrorFetching (fst o) e)]
                     | inr _ => []
                     end) outcomes.

(** The level of the root logger once [fetch_papers] has called
    [logging.basicConfig]. *)
Definition effective_level (configured : option level) (debug : bool) : level :=
  match configured with
  | Some r => r
  | None => if debug then DEBUG else INFO
  end.

(** The record [l, m] when a root logger at level [root] lets it through. *)
Definition record_if (root l : level) (m : message) : list log_record :=
  if levelno root <=? levelno l then [(l, m)] else [].

(** ** cli.py *)

(** The namespace [parser.parse_args()] returns: the positional query,
    the [-d] flag, and the [-f] file name, [None] when not given. *)
Record Args := mkArgs {
  args_query : string;
  args_debug : bool;
  args_file : option string }.

Inductive console : Type :=
| SavedResults (file : string)
| PaperLine (paper : Paper).

(** What [main] does to the outside: [open(file, mode="w")], one csv row,
    the end of the [with] block, one [print]. *)
Inductive output : Type :=
| Opened (file : string)
| Row (fields : list string)
| Closed (file : string)
| Printed (line : console).

Definition fieldnames : list string :=
  [ "PubmedID"; "Title"; "Publication Date"; "Non-academic Author(s)";
    "Company Affiliation(s)"; "Corresponding Author Email" ].

(** The row [csv.DictWriter.writerow(paper)] writes: the values of the
    dictionary in the order of [fieldnames]. *)
Definition row_of (paper : Paper) : list string :=
  [ PubmedID paper; Title paper; Publication_Date paper;
    Non_academic_Authors paper; Company_Affiliations paper;
    Corresponding_Author_Email paper ].

Section Cli.

Variable World : Type.
Variable esearch : string -> nat -> World -> result (list string) * World.
Variable efetch : string -> World -> result EntrezRecord * World.
Variable S : PySet.

(** [open(file, mode="w", newline="", encoding="utf-8")]; rows written to
    an opened file and lines printed are taken to succeed. *)
Variable fopen : string -> World -> result unit * World.

Record cli_state := mkCliState {
  run_state : state World;
  outputs : list output }.

(** The [with open(...) as f] block and the [print] after it. *)
Definition save_csv (file : string) (papers : list Paper) (st : state World)
    (out : list output) : result unit * cli_state :=
  match fopen file (world st) with
  | (inl e, w) =>
      (inl e,
       {| run_state := {| world := w; root_level := root_level st;
                          emitted := emitted st |};
          outputs := out |})
  | (inr _, w) =>
      let opened := out ++ [Opened file] in
      let header := opened ++ [Row fieldnames] in
      let rows :=
        fold_left (fun o paper => o ++ [Row (row_of paper)]) papers header in
      let closed := rows ++ [Closed file] in
      (inr tt,
       {| run_state := {| world := w; root_level := root_level st;
                          emitted := emitted st |};
          outputs := closed ++ [Printed (SavedResults file)] |})
  end.

(** The [else] branch: [for paper in papers: print(paper)]. *)
Definition print_papers (papers : list Paper) (st : state World)
    (out : list output) : result unit * cli_state :=
  (inr tt,
   {| run_state := st;
      outputs := fold_left (fun o paper => o ++ [Printed (PaperLine paper)])
                           papers out |}).

(** [main()] from the parsed arguments on. *)
Definition main (args : Args) (cs : cli_state) : result unit * cli_state :=
  match fetch_papers esearch efetch S (args_query args) (args_debug args)
                     (run_state cs) with
  | (inl e, st) => (inl e, {| run_state := st; outputs := outputs cs |})
  | (inr papers, st) =>
      match args_file args with
      | Some file =>
          if Py.truthy file then save_csv file papers st (outputs cs)
          else print_papers papers st (outputs cs)
      | None => print_papers papers st (outputs cs)
      end
  end.

End Cli.

Arguments mkCliState {World}.
Arguments run_state {World}.
Arguments outputs {World}.
Arguments save_csv {World}.
Arguments print_papers {World}.
Arguments main {World}.

(** ** Sample records *)

Definition company_author (fore last aff_text : string) : AuthorT :=
  {| AffiliationInfo := Some [ {| Affiliation := Some aff_text |} ];
     ForeName := Some fore;
     LastName := Some last |}.

Definition article_with (title : string) (authors : list AuthorT) : ArticleT :=
  {| ArticleTitle := Some title;
     Journal := None;
     AuthorList := Some authors |}.

Definition record_with (article_data : ArticleT) : EntrezRecord :=
  {| PubmedArticle :=
       Some [ {| MedlineCitation :=
                   Some {| Article := Some article_data |} |} ] |}.

(** Two company authors, each affiliation carrying an email. *)
Definition two_emails : ArticleT :=
  article_with "T"
    [ company_author "Jane" "Doe" "Acme Inc, a@acme.com";
      company_author "John" "Roe" "Beta Ltd, b@beta.com" ].

(** Two authors with the same company affiliation string. *)
Definition same_affiliation : ArticleT :=
  article_with "T"
    [ company_author "Jane" "Doe" "Acme Pharma Inc, Cambridge";
      company_author "John" "Roe" "Acme Pharma Inc, Cambridge" ].

Definition article_A : ArticleT :=
  article_with "Paper A"
    [ company_author "Jane" "Doe" "Acme Pharma Inc, Cambridge" ].

Definition article_C : ArticleT :=
  article_with "Paper C"
    [ company_author "John" "Roe" "Beta Biotech Ltd" ].

Definition article_D : ArticleT :=
  article_with "Paper D"
    [ company_author "Ann" "Lee" "Dept of Biology, University of X" ].

(** A company author recorded without forename and last name. *)
Definition article_nameless : ArticleT :=
  article_with "Paper N"
    [ {| AffiliationInfo := Some [ {| Affiliation := Some "Acme Inc" |} ];
         ForeName := None;
         LastName := None |} ].

Definition nameless_esearch (query : string) (retmax : nat) (w : unit)
    : result (list string) * unit :=
  (inr ["N"], w).

Definition nameless_efetch (pmid : string) (w : unit)
    : result EntrezRecord * unit :=
  (inr (record_with article_nameless), w).

(** A search that answers A, B, C, D, and a fetch service that counts its
    calls, fails on B and knows A, C and D. *)
Definition sample_esearch (query : string) (retmax : nat) (w : nat)
    : result (list string) * nat :=
  (inr ["A"; "B"; "C"; "D"], w).

Definition sample_efetch (pmid : string) (w : nat)
    : result EntrezRecord * nat :=
  (if String.eqb pmid "A" then inr (record_with article_A)
   else if String.eqb pmid "C" then inr (record_with article_C)
   else if String.eqb pmid "D" then inr (record_with article_D)
   else inl (ServiceError "HTTP Error 400"),
   w + 1).

Definition sample_state : state nat :=
  {| world := 0; root_level := None; emitted := [] |}.

(** A search that fails, and a file that opens. *)
Definition failing_esearch (query : string) (retmax : nat) (w : nat)
    : result (list string) * nat :=
  (inl (ServiceError "URLError"), w).

Definition sample_fopen (file : string) (w : nat) : result unit * nat :=
  (inr tt, w).

(** A file that cannot be opened. *)
Definition failing_fopen (file : string) (w : nat) : result unit * nat :=
  (inl (ServiceError "Permission denied"), w).

Definition sample_cli_state : cli_state nat :=
  {| run_state := sample_state; outputs := [] |}.

Definition configured_state : state nat :=
  {| world := 0; root_level := Some WARNING; emitted := [] |}.

(** * Properties *)

Example classify_acme :
  is_non_academic_affiliation "Acme Pharma Inc, Cambridge" = true.
Proof. reflexivity. Qed.

Example classify_university :
  is_non_academic_affiliation "Dept of Biology, University of X" = false.
Proof. reflexivity. Qed.

Example search_email :
  Re.search "Acme Inc, contact: j.doe@acme.com" = Some "j.doe@acme.com".
Proof. reflexivity. Qed.

Example strip_name : Py.strip (" " ++ "Doe")%string = "Doe".
Proof. reflexivity. Qed.

Example sample_run :
  fst (fetch_papers sample_esearch sample_efetch last_seen_order "q" false
         sample_state)
  = inr [ paper_details last_seen_order article_A "A";
          paper_details last_seen_order article_C "C" ].
Proof. vm_compute. reflexivity. Qed.

Example sample_log :
  emitted (snd (fetch_papers sample_esearch sample_efetch last_seen_order "q"
                  false sample_state))
  = [ (INFO, FetchingIds "q");
      (ERROR, ErrorFetching "B" (ServiceError "HTTP Error 400")) ].
Proof. vm_compute. reflexivity. Qed.

Example split_date : Py.split dash "2020-Jan-" = ["2020"; "Jan"; ""].
Proof. reflexivity. Qed.

(** ** Strings *)

Section StringFacts.

Local Open Scope string_scope.

Lemma append_empty_r (s : string) : s ++ "" = s.
Proof. induction s as [|c s IH]; simpl; [reflexivity | now rewrite IH]. Qed.

Lemma append_assoc (a b c : string) : (a ++ b) ++ c = a ++ (b ++ c).
Proof. induction a as [|x a IH]; simpl; [reflexivity | now rewrite IH]. Qed.

Lemma startswith_spec (k s : string) :
  Py.startswith k s = true <-> exists post, s = k ++ post.
Proof.
  revert s. induction k as [|a k IH]; intro s; simpl.
  - split; [intros _; now exists s | reflexivity].
  - destruct s as [|b s].
    + split; [discriminate | intros [post H]; discriminate].
    + rewrite andb_true_iff, Ascii.eqb_eq, IH. split.
      * intros [-> [post ->]]. now exists post.
      * intros [post H]. injection H as -> ->. split; [reflexivity | now exists post].
Qed.

Lemma contains_spec (k s : string) :
  Py.contains k s = true <-> exists pre post, s = pre ++ k ++ post.
Proof.
  induction s as [|c s IH].
  - simpl. rewrite orb_false_r, startswith_spec. split.
    + intros [post H]. now exists "", post.
    + intros [pre [post H]]. destruct pre; simpl in H.
      * now exists post.
      * discriminate.
  - change (Py.contains k (String c s))
      with (Py.startswith k (String c s) || Py.contains k s).
    rewrite orb_true_iff, startswith_spec, IH. split.
    + intros [[post H] | [pre [post H]]].
      * now exists "", post.
      * exists (String c pre), post. simpl. now rewrite H.
    + intros [pre [post H]]. destruct pre as [|x pre]; simpl in H.
      * left. now exists post.
      * right. injection H as _ H. now exists pre, post.
Qed.

Lemma lower_append (a b : string) :
  Py.lower (a ++ b) = Py.lower a ++ Py.lower b.
Proof. induction a as [|x a IH]; simpl; [reflexivity | now rewrite IH]. Qed.

Lemma lower_append_inv (s a b : string) :
  Py.lower s = a ++ b ->
  exists s1 s2, s = s1 ++ s2 /\ Py.lower s1 = a /\ Py.lower s2 = b.
Proof.
  revert s. induction a as [|x a IH]; intros s H; simpl in H.
  - now exists "", s.
  - destruct s as [|c s]; simpl in H; [discriminate |].
    injection H as Hc H. destruct (IH s H) as [s1 [s2 [-> [H1 H2]]]].
    exists (String c s1), s2. simpl. now rewrite Hc, H1.
Qed.

(** Membership tested on the lowered text is occurrence up to case. *)
Lemma contains_lower (k s : string) :
  Py.contains k (Py.lower s) = true <-> occurs_ci k s.
Proof.
  rewrite contains_spec. unfold occurs_ci. split.
  - intros [pre [post H]].
    apply lower_append_inv in H. destruct H as [s1 [s2 [-> [_ H]]]].
    apply lower_append_inv in H. destruct H as [mid [s3 [-> [H _]]]].
    now exists s1, mid, s3.
  - intros [pre [mid [post [-> H]]]].
    exists (Py.lower pre), (Py.lower post).
    now rewrite !lower_append, H.
Qed.

Lemma any_contains_lower (ks : list string) (s : string) :
  Py.any (fun k => Py.contains k (Py.lower s)) ks = true <->
  exists k, In k ks /\ occurs_ci k s.
Proof.
  unfold Py.any. rewrite existsb_exists.
  split; intros [k [Hin H]]; exists k; (split; [exact Hin |]);
    now apply contains_lower.
Qed.

Lemma lower_char_idem (c : ascii) :
  Py.lower_char (Py.lower_char c) = Py.lower_char c.
Proof. destruct c as [[] [] [] [] [] [] [] []]; reflexivity. Qed.

Lemma lower_upper_char (c : ascii) :
  Py.lower_char (Py.upper_char c) = Py.lower_char c.
Proof. destruct c as [[] [] [] [] [] [] [] []]; reflexivity. Qed.

Lemma same_letter_lower (c d : ascii) :
  same_letter c d -> Py.lower_char c = Py.lower_char d.
Proof.
  intros [-> | [-> | ->]].
  - reflexivity.
  - symmetry. apply lower_upper_char.
  - symmetry. apply lower_char_idem.
Qed.

Lemma case_variant_lower (s t : string) :
  case_variant s t -> Py.lower s = Py.lower t.
Proof.
  induction 1 as [|c d s t Hcd _ IH]; simpl.
  - reflexivity.
  - now rewrite (same_letter_lower c d Hcd), IH.
Qed.

Lemma case_variant_upper (s : string) : case_variant s (Py.upper s).
Proof.
  induction s as [|c s IH]; simpl; constructor; try assumption.
  right. now left.
Qed.

End StringFacts.

(** ** The email pattern *)

Section RegexFacts.

Local Open Scope string_scope.

Lemma span_class_spec (s : string) :
  forall run rest,
    Re.span_class s = (run, rest) ->
    s = run ++ rest /\ Re.all_class run = true.
Proof.
  induction s as [|c s IH]; intros run rest H; simpl in H.
  - injection H as <- <-. now split.
  - destruct (Re.in_class c) eqn:Ec.
    + destruct (Re.span_class s) as [run' rest'].
      injection H as <- <-. destruct (IH run' rest' eq_refl) as [-> Hall].
      split; [reflexivity |]. simpl. now rewrite Ec.
    + injection H as <- <-. now split.
Qed.

(** A match is a non-empty run of class characters, an at sign, and a
    non-empty run of class characters, and it starts the text. *)
Lemma match_here_shape (s m : string) :
  Re.match_here s = Some m ->
  exists local dom post,
    s = m ++ post /\ m = local ++ String (ascii_of_nat 64) dom /\
    local <> "" /\ dom <> "" /\
    Re.all_class local = true /\ Re.all_class dom = true.
Proof.
  unfold Re.match_here.
  destruct (Re.span_class s) as [run rest] eqn:E.
  destruct run as [|c run]; [discriminate |].
  destruct rest as [|a rest]; [discriminate |].
  destruct (Nat.eqb (nat_of_ascii a) 64) eqn:Ea; [| discriminate].
  destruct (Re.span_class rest) as [dom post] eqn:E2. cbn [fst].
  destruct dom as [|d dom]; [discriminate |].
  intro H. injection H as <-.
  apply Nat.eqb_eq in Ea.
  assert (Ha : a = ascii_of_nat 64)
    by (rewrite <- Ea; symmetry; apply ascii_nat_embedding).
  destruct (span_class_spec _ _ _ E) as [-> Hrun].
  destruct (span_class_spec _ _ _ E2) as [-> Hdom].
  exists (String c run), (String d dom), post. subst a.
  repeat split; try discriminate; try assumption.
  simpl. f_equal. rewrite !append_assoc. reflexivity.
Qed.

(** What [re.search] returns occurs in the text and has the shape of the
    pattern. *)
Lemma search_sound (s m : string) :
  Re.search s = Some m ->
  exists pre post local dom,
    s = pre ++ m ++ post /\ m = local ++ String (ascii_of_nat 64) dom /\
    local <> "" /\ dom <> "" /\
    Re.all_class local = true /\ Re.all_class dom = true.
Proof.
  induction s as [|c s IH]; simpl.
  - discriminate.
  - destruct (Re.match_here (String c s)) as [m'|] eqn:E.
    + intro H. injection H as <-.
      destruct (match_here_shape _ _ E) as [local [dom [post [Hs H]]]].
      now exists "", post, local, dom.
    + intro H. destruct (IH H) as [pre [post [local [dom [-> Hm]]]]].
      now exists (String c pre), post, local, dom.
Qed.

End RegexFacts.

(** ** The classifier *)

(** C2. The classifier answers true exactly when some non-academic keyword
    occurs in the text up to case and no academic keyword does; a text with
    a keyword of each kind, a text with no non-academic keyword, and the
    empty text all classify false. *)
Theorem classifier_characterisation (affiliation : string) :
  (is_non_academic_affiliation affiliation = true <->
     (exists k, In k non_academic_keywords /\ occurs_ci k affiliation) /\
     (forall k, In k academic_keywords -> ~ occurs_ci k affiliation))
  /\ ((exists k, In k academic_keywords /\ occurs_ci k affiliation) /\
      (exists k, In k non_academic_keywords /\ occurs_ci k affiliation) ->
      is_non_academic_affiliation affiliation = false)
  /\ ((forall k, In k non_academic_keywords -> ~ occurs_ci k affiliation) /\
      (forall k, In k academic_keywords -> ~ occurs_ci k affiliation) ->
      is_non_academic_affiliation affiliation = false)
  /\ is_non_academic_affiliation EmptyString = false.
Proof.
  assert (Hiff :
    is_non_academic_affiliation affiliation = true <->
     (exists k, In k non_academic_keywords /\ occurs_ci k affiliation) /\
     (forall k, In k academic_keywords -> ~ occurs_ci k affiliation)).
  { unfold is_non_academic_affiliation.
    rewrite andb_true_iff, negb_true_iff, any_contains_lower.
    rewrite <- not_true_iff_false, any_contains_lower.
    split; intros [H1 H2]; (split; [exact H1 |]).
    - intros k Hin Hocc. apply H2. now exists k.
    - intros [k [Hin Hocc]]. exact (H2 k Hin Hocc). }
  split; [exact Hiff |]. split; [| split].
  - intros [[k [Hin Hocc]] _]. apply not_true_iff_false.
    intro H. apply Hiff in H. destruct H as [_ H]. exact (H k Hin Hocc).
  - intros [Hnone _]. apply not_true_iff_false.
    intro H. apply Hiff in H. destruct H as [[k [Hin Hocc]] _].
    exact (Hnone k Hin Hocc).
  - reflexivity.
Qed.

(** C5. Two texts that differ only by the case of their letters classify
    alike. *)
Theorem classifier_case_insensitive (s t : string) :
  case_variant s t ->
  is_non_academic_affiliation s = is_non_academic_affiliation t.
Proof.
  intro H. unfold is_non_academic_affiliation.
  now rewrite (case_variant_lower s t H).
Qed.

Lemma classifier_case_insensitive_witness :
  case_variant "BIOTECH INC" "biotech inc" /\
  is_non_academic_affiliation "BIOTECH INC"
  = is_non_academic_affiliation "biotech inc".
Proof.
  assert (H : case_variant "BIOTECH INC" "biotech inc").
  { repeat (constructor; [first [now left | right; right; reflexivity] |]).
    constructor. }
  split; [exact H | exact (classifier_case_insensitive _ _ H)].
Defined.

(** ** The author loop *)

Arguments is_non_academic_affiliation : simpl never.
Arguments Re.search : simpl never.
Arguments fullname : simpl never.
Arguments email_in : simpl never.

Section ScanFacts.

Lemma last_cons {A} (l : list A) (x d : A) : last (x :: l) d = last l x.
Proof.
  revert x d. induction l as [|y l IH]; intros x d.
  - reflexivity.
  - change (last (x :: y :: l) d) with (last (y :: l) d).
    now rewrite (IH y d), (IH y x).
Qed.

Lemma last_app_default {A} (l1 l2 : list A) (d : A) :
  last (l1 ++ l2) d = last l2 (last l1 d).
Proof.
  revert d. induction l1 as [|x l1 IH]; intro d.
  - reflexivity.
  - rewrite <- app_comm_cons, !last_cons. apply IH.
Qed.

Lemma last_email_in (aff_text d : string) :
  is_non_academic_affiliation aff_text = true ->
  last (email_in aff_text) d
  = match Re.search aff_text with Some m => m | None => d end.
Proof.
  intro H. unfold email_in. rewrite H. now destruct (Re.search aff_text).
Qed.

(** The inner loop, from any state of the three variables. *)
Lemma scan_affiliations_spec (author : AuthorT) (affs : list AffiliationInfoT) :
  forall st,
    let texts := map (fun aff => Py.get_str (Affiliation aff)) affs in
    fold_left (scan_affiliation author) affs st
    = {| non_academic_authors :=
           non_academic_authors st ++
           map (fun _ => fullname author)
               (filter is_non_academic_affiliation texts);
         company_affiliations :=
           company_affiliations st ++
           filter is_non_academic_affiliation texts;
         corresponding_email :=
           last (flat_map email_in texts) (corresponding_email st) |}.
Proof.
  induction affs as [|aff affs IH]; intro st; cbn [fold_left map filter flat_map].
  - cbn. rewrite !app_nil_r. now destruct st.
  - rewrite IH. cbv zeta. unfold scan_affiliation.
    set (t := Py.get_str (Affiliation aff)).
    destruct (is_non_academic_affiliation t) eqn:E; cbn [map].
    + cbn [non_academic_authors company_affiliations corresponding_email].
      rewrite <- !app_assoc. cbn [app].
      rewrite last_app_default, last_email_in by exact E. reflexivity.
    + unfold email_in at 2. rewrite E. reflexivity.
Qed.

Lemma scan_author_spec (st : Scan) (author : AuthorT) :
  scan_author st author
  = {| non_academic_authors := non_academic_authors st ++ names_of author;
       company_affiliations :=
         company_affiliations st ++
         filter is_non_academic_affiliation (affiliation_texts author);
       corresponding_email :=
         last (flat_map email_in (affiliation_texts author))
              (corresponding_email st) |}.
Proof.
  unfold scan_author, names_of, affiliation_texts.
  destruct (AffiliationInfo author) as [affs|].
  - apply scan_affiliations_spec.
  - simpl. rewrite !app_nil_r. now destruct st.
Qed.

Lemma scan_authors_from (authors : list AuthorT) :
  forall st,
    fold_left scan_author authors st
    = {| non_academic_authors :=
           non_academic_authors st ++ flat_map names_of authors;
         company_affiliations :=
           company_affiliations st ++
           flat_map (fun a => filter is_non_academic_affiliation
                                     (affiliation_texts a)) authors;
         corresponding_email :=
           last (flat_map email_in (flat_map affiliation_texts authors))
                (corresponding_email st) |}.
Proof.
  induction authors as [|a authors IH]; intro st; simpl.
  - rewrite !app_nil_r. now destruct st.
  - rewrite IH, scan_author_spec. simpl.
    rewrite <- !app_assoc, flat_map_app, last_app_default. reflexivity.
Qed.

(** The three variables when the loop ends. *)
Lemma scan_authors_spec (article_data : ArticleT) :
  scan_authors article_data
  = {| non_academic_authors := flat_map names_of (authors_of article_data);
       company_affiliations :=
         flat_map (fun a => filter is_non_academic_affiliation
                                   (affiliation_texts a))
                  (authors_of article_data);
       corresponding_email :=
         last (discovered_emails article_data) EmptyString |}.
Proof.
  unfold scan_authors, discovered_emails, scanned_affiliations, authors_of.
  now rewrite scan_authors_from.
Qed.

Lemma company_affiliations_In (article_data : ArticleT) (a : string) :
  In a (company_affiliations (scan_authors article_data)) <->
  In a (scanned_affiliations article_data) /\
  is_non_academic_affiliation a = true.
Proof.
  rewrite scan_authors_spec. simpl. unfold scanned_affiliations.
  rewrite !in_flat_map. split.
  - intros [au [Hau H]]. apply filter_In in H. destruct H as [H1 H2].
    split; [now exists au | exact H2].
  - intros [[au [Hau H1]] H2]. exists au. split; [exact Hau |].
    apply filter_In. now split.
Qed.

Lemma names_affiliations_length (authors : list AuthorT) :
  length (flat_map names_of authors)
  = length (flat_map (fun a => filter is_non_academic_affiliation
                                      (affiliation_texts a)) authors).
Proof.
  induction authors as [|a authors IH]; simpl.
  - reflexivity.
  - rewrite !length_app, IH. unfold names_of. now rewrite length_map.
Qed.

Lemma no_company_no_email (texts : list string) :
  filter is_non_academic_affiliation texts = [] ->
  flat_map email_in texts = [].
Proof.
  induction texts as [|t texts IH]; simpl.
  - reflexivity.
  - unfold email_in at 1.
    destruct (is_non_academic_affiliation t); [discriminate |].
    exact IH.
Qed.

Lemma no_names_no_email (authors : list AuthorT) :
  flat_map names_of authors = [] ->
  flat_map email_in (flat_map affiliation_texts authors) = [].
Proof.
  induction authors as [|a authors IH]; simpl.
  - reflexivity.
  - intro H. apply app_eq_nil in H. destruct H as [Ha Hrest].
    rewrite flat_map_app, (IH Hrest), app_nil_r.
    apply no_company_no_email. unfold names_of in Ha.
    now apply map_eq_nil in Ha.
Qed.

Lemma iter_nil_iff (S : PySet) (l : list string) : iter S l = [] <-> l = [].
Proof.
  split; intro H.
  - destruct l as [|x l]; [reflexivity |].
    assert (Hx : In x (iter S (x :: l))) by (apply iter_In; now left).
    rewrite H in Hx. destruct Hx.
  - subst l. destruct (iter S []) as [|x l] eqn:E; [reflexivity |].
    assert (Hx : In x (iter S [])) by (rewrite E; now left).
    apply iter_In in Hx. destruct Hx.
Qed.

Lemma authors_nil_iff_affiliations_nil (article_data : ArticleT) :
  non_academic_authors (scan_authors article_data) = [] <->
  company_affiliations (scan_authors article_data) = [].
Proof.
  rewrite scan_authors_spec. simpl.
  pose proof (names_affiliations_length (authors_of article_data)) as H.
  split; intro E; rewrite E in H; simpl in H.
  - symmetry in H. now apply length_zero_iff_nil in H.
  - now apply length_zero_iff_nil in H.
Qed.

End ScanFacts.

(** ** Extraction *)

Lemma corresponding_email_spec
    (S : PySet) (article_data : ArticleT) (pmid : string) :
  Corresponding_Author_Email (paper_details S article_data pmid)
  = last (discovered_emails article_data) EmptyString.
Proof.
  unfold paper_details. cbn [Corresponding_Author_Email].
  now rewrite scan_authors_spec.
Qed.

(** C1 (as the code has it). The recorded email is the one found in the
    last non-academic affiliation, in scanning order, that carries an
    email; with no such affiliation it is empty. *)
Theorem corresponding_email_is_last_match
    (S : PySet) (article_data : ArticleT) (pmid : string) :
  Corresponding_Author_Email (paper_details S article_data pmid)
  = last (discovered_emails article_data) EmptyString.
Proof.
  unfold paper_details. cbn [Corresponding_Author_Email].
  rewrite scan_authors_spec. cbn [corresponding_email].
  reflexivity.
Qed.

(** C1 (as stated) fails: with two non-academic affiliations carrying an
    email each, the second email replaces the first. *)
Lemma first_email_is_overwritten :
  discovered_emails two_emails = ["a@acme.com"; "b@beta.com"] /\
  Corresponding_Author_Email (paper_details last_seen_order two_emails "1")
  = "b@beta.com" /\
  Corresponding_Author_Email (paper_details last_seen_order two_emails "1")
  <> hd EmptyString (discovered_emails two_emails).
Proof.
  split; [| split].
  - vm_compute. reflexivity.
  - vm_compute. reflexivity.
  - vm_compute. discriminate.
Qed.

(** C6. The two set-valued fields are joined from sequences without
    repetition, and a non-academic affiliation text scanned any number of
    times appears exactly once among the company affiliations. *)
Theorem set_fields_deduplicated
    (S : PySet) (article_data : ArticleT) (pmid : string) :
  Non_academic_Authors (paper_details S article_data pmid)
  = Py.join ", " (author_set S article_data) /\
  Company_Affiliations (paper_details S article_data pmid)
  = Py.join ", " (affiliation_set S article_data) /\
  NoDup (author_set S article_data) /\
  NoDup (affiliation_set S article_data) /\
  (forall name,
     In name (author_set S article_data) <->
     In name (flat_map names_of (authors_of article_data))) /\
  (forall a,
     In a (scanned_affiliations article_data) /\
     is_non_academic_affiliation a = true ->
     count_occ string_dec (affiliation_set S article_data) a = 1).
Proof.
  split; [reflexivity |]. split; [reflexivity |].
  split; [apply iter_NoDup |]. split; [apply iter_NoDup |]. split.
  - intro name. unfold author_set. rewrite iter_In, scan_authors_spec.
    reflexivity.
  - intros a H. apply company_affiliations_In in H.
    pose proof (iter_NoDup S (company_affiliations (scan_authors article_data)))
      as Hnd.
    rewrite (NoDup_count_occ' string_dec) in Hnd.
    apply Hnd. unfold affiliation_set. now apply iter_In.
Qed.

Section DateFacts.

Local Open Scope string_scope.

Lemma pub_date_get_component (field : PubDateT -> option string)
    (article_data : ArticleT) :
  pub_date_get field (pub_date article_data)
  = segment (component field article_data).
Proof.
  unfold pub_date_get, pub_date, component, segment, Py.get_str.
  destruct (Journal article_data) as [[[[[d|]]|]]|]; reflexivity.
Qed.

Lemma count_append (c : ascii) (a b : string) :
  Py.count c (a ++ b) = Py.count c a + Py.count c b.
Proof.
  induction a as [|x a IH]; simpl; [reflexivity | rewrite IH; lia].
Qed.

Lemma split_length (sep : ascii) (s : string) :
  length (Py.split sep s) = Datatypes.S (Py.count sep s).
Proof.
  induction s as [|c s IH]; simpl.
  - reflexivity.
  - destruct (Py.split sep s) as [|seg segs]; [discriminate |].
    destruct (Ascii.eqb c sep); simpl in *; lia.
Qed.

Lemma split_no_separator (sep : ascii) (s : string) :
  Py.count sep s = 0 -> Py.split sep s = [s].
Proof.
  induction s as [|c s IH]; simpl.
  - reflexivity.
  - destruct (Ascii.eqb c sep); [discriminate |].
    intro H. now rewrite (IH H).
Qed.

Lemma split_append (sep : ascii) (a b : string) :
  Py.split sep (a ++ String sep b) = (Py.split sep a ++ Py.split sep b)%list.
Proof.
  induction a as [|c a IH]; simpl.
  - rewrite Ascii.eqb_refl.
    pose proof (split_length sep b) as H.
    destruct (Py.split sep b); [discriminate | reflexivity].
  - rewrite IH.
    pose proof (split_length sep a) as H.
    destruct (Py.split sep a); [discriminate |].
    simpl. now destruct (Ascii.eqb c sep).
Qed.

End DateFacts.

(** C7. The publication date is the year, month and day segments joined
    by a dash, a component missing from the record (or from a record
    without journal, issue or date) being the empty segment.  Splitting the
    date at the dash gives three segments plus one per dash inside the
    components, and exactly the three segments when they hold no dash. *)
Theorem publication_date_three_segments
    (S : PySet) (article_data : ArticleT) (pmid : string) :
  let y := segment (component Year article_data) in
  let m := segment (component Month article_data) in
  let d := segment (component Day article_data) in
  let date := Publication_Date (paper_details S article_data pmid) in
  date = Py.join "-" [y; m; d] /\
  length (Py.split dash date)
  = 3 + Py.count dash y + Py.count dash m + Py.count dash d /\
  (Py.count dash y = 0 /\ Py.count dash m = 0 /\ Py.count dash d = 0 ->
   Py.split dash date = [y; m; d]).
Proof.
  cbv zeta. unfold paper_details. cbn [Publication_Date].
  unfold date_str. rewrite !pub_date_get_component.
  set (y := segment (component Year article_data)).
  set (m := segment (component Month article_data)).
  set (d := segment (component Day article_data)).
  assert (E : (y ++ "-" ++ m ++ "-" ++ d)%string
              = (y ++ String dash (m ++ String dash d))%string) by reflexivity.
  split; [reflexivity |]. rewrite E. split.
  - rewrite split_length, !count_append. simpl.
    rewrite !count_append. simpl. lia.
  - intros [Hy [Hm Hd]].
    rewrite !split_append, !split_no_separator by assumption. reflexivity.
Qed.

(** C8. Two extractions of the same record under the same identifier,
    whatever order each run's sets iterate in, agree on the identifier,
    title, date and email, and their author and affiliation sets have the
    same elements; with the same iteration order the two summaries are
    equal. *)
Theorem extraction_deterministic
    (S1 S2 : PySet) (article_data : ArticleT) (pmid : string) :
  let p1 := paper_details S1 article_data pmid in
  let p2 := paper_details S2 article_data pmid in
  PubmedID p1 = PubmedID p2 /\
  Title p1 = Title p2 /\
  Publication_Date p1 = Publication_Date p2 /\
  Corresponding_Author_Email p1 = Corresponding_Author_Email p2 /\
  Permutation (author_set S1 article_data) (author_set S2 article_data) /\
  Permutation (affiliation_set S1 article_data)
              (affiliation_set S2 article_data) /\
  (iter S1 = iter S2 -> p1 = p2).
Proof.
  cbv zeta. repeat split; try reflexivity.
  - apply NoDup_Permutation; try apply iter_NoDup.
    intro x. unfold author_set. now rewrite !iter_In.
  - apply NoDup_Permutation; try apply iter_NoDup.
    intro x. unfold affiliation_set. now rewrite !iter_In.
  - intro H. unfold paper_details, author_set, affiliation_set.
    now rewrite H.
Qed.

(** ** The pipeline *)

Section PipelineFacts.

Variable World : Type.
Variable esearch : string -> nat -> World -> result (list string) * World.
Variable efetch : string -> World -> result EntrezRecord * World.
Variable S : PySet.

(** One call of [fetch_paper_details]: the log and its level are left
    alone, the world moves as the fetch service says. *)
Lemma fetch_paper_details_run (pmid : string) (st : state World) :
  fetch_paper_details efetch S pmid st
  = (details_of S pmid (fst (efetch pmid (world st))),
     {| world := snd (efetch pmid (world st));
        root_level := root_level st;
        emitted := emitted st |}).
Proof.
  unfold fetch_paper_details, bind, call, lift, ret, details_of, and_then.
  destruct (efetch pmid (world st)) as [[e|record] w]; cbn [fst snd].
  - reflexivity.
  - destruct (article_data_of record) as [e|article_data]; reflexivity.
Qed.

(** One turn of the loop never raises; it appends the summary when the
    identifier did not fail and the summary passes the test. *)
Lemma fetch_one_run (papers : list Paper) (pmid : string) (st : state World) :
  fst (fetch_one efetch S papers pmid st)
  = inr (papers ++
         filter qualifying
           (successes [(pmid, details_of S pmid (fst (efetch pmid (world st))))]))
  /\ world (snd (fetch_one efetch S papers pmid st))
     = snd (efetch pmid (world st)).
Proof.
  unfold fetch_one, try_except, bind. rewrite fetch_paper_details_run.
  destruct (details_of S pmid (fst (efetch pmid (world st)))) as [e|paper].
  - cbn. rewrite app_nil_r. split; reflexivity.
  - cbn. unfold qualifying.
    destruct (Py.truthy (Non_academic_Authors paper)); cbn;
      rewrite ?app_nil_r; split; reflexivity.
Qed.

Lemma for_pmids_run (pmids : list string) :
  forall (papers : list Paper) (st : state World),
    fst (for_pmids efetch S pmids papers st)
    = inr (papers ++
           filter qualifying (successes (fetched efetch S (world st) pmids))).
Proof.
  induction pmids as [|pmid rest IH]; intros papers st.
  - cbn. now rewrite app_nil_r.
  - cbn [for_pmids fetched]. unfold bind.
    destruct (fetch_one_run papers pmid st) as [Hval Hworld].
    destruct (fetch_one efetch S papers pmid st) as [[e|papers'] st'];
      cbn [fst snd] in Hval, Hworld; [discriminate |].
    injection Hval as ->. rewrite IH, Hworld.
    destruct (efetch pmid (world st)) as [r w']. cbn [fst snd].
    unfold successes. cbn [flat_map snd].
    rewrite app_nil_r, <- app_assoc, <- filter_app. reflexivity.
Qed.

(** The value of a whole run: the search error when the search fails,
    otherwise the qualifying summaries of the identifiers that did not
    fail, in search order. *)
Lemma fetch_papers_run (query : string) (debug : bool) (st : state World) :
  fst (fetch_papers esearch efetch S query debug st)
  = match fst (esearch query 20 (world st)) with
    | inl e => inl e
    | inr pmids =>
        inr (filter qualifying
               (successes
                  (fetched efetch S (snd (esearch query 20 (world st))) pmids)))
    end.
Proof.
  unfold fetch_papers, fetch_pubmed_ids, bind, call.
  assert (Hcfg : forall l, world (snd (basicConfig l st)) = world st).
  { intro l. unfold basicConfig. now destruct (root_level st). }
  destruct debug.
  - destruct (basicConfig DEBUG st) as [[e|[]] st1] eqn:E1.
    + unfold basicConfig in E1. destruct (root_level st); discriminate.
    + specialize (Hcfg DEBUG). rewrite E1 in Hcfg. cbn [snd] in Hcfg.
      cbn [log world]. rewrite Hcfg.
      destruct (esearch query 20 (world st)) as [[e|pmids] w]; cbn [fst snd].
      * reflexivity.
      * rewrite for_pmids_run. reflexivity.
  - destruct (basicConfig INFO st) as [[e|[]] st1] eqn:E1.
    + unfold basicConfig in E1. destruct (root_level st); discriminate.
    + specialize (Hcfg INFO). rewrite E1 in Hcfg. cbn [snd] in Hcfg.
      cbn [log world]. rewrite Hcfg.
      destruct (esearch query 20 (world st)) as [[e|pmids] w]; cbn [fst snd].
      * reflexivity.
      * rewrite for_pmids_run. reflexivity.
Qed.

(** Every identifier found is fetched, once and in search order, whatever
    happened to the identifiers before it. *)
Lemma fetched_identifiers (pmids : list string) :
  forall w, map fst (fetched efetch S w pmids) = pmids.
Proof.
  induction pmids as [|pmid rest IH]; intro w; cbn [fetched].
  - reflexivity.
  - destruct (efetch pmid w) as [r w']. cbn [map fst]. now rewrite IH.
Qed.

Lemma successes_fetched_origin (paper : Paper) (pmids : list string) :
  forall w,
    In paper (successes (fetched efetch S w pmids)) ->
    exists article_data pmid,
      In pmid pmids /\ paper = paper_details S article_data pmid.
Proof.
  induction pmids as [|pmid rest IH]; intros w H.
  - destruct H.
  - cbn [fetched] in H. destruct (efetch pmid w) as [r w'].
    unfold successes in H. cbn [flat_map snd] in H.
    apply in_app_or in H. destruct H as [H | H].
    + unfold details_of, and_then in H. destruct r as [e|record]; [destruct H |].
      destruct (article_data_of record) as [e|article_data]; [destruct H |].
      destruct H as [<- | []]. exists article_data, pmid.
      split; [now left | reflexivity].
    + destruct (IH w' H) as [ad [p [Hin Hp]]]. exists ad, p.
      split; [now right | exact Hp].
Qed.

(** Every summary a run returns passed the test and was extracted from
    the record of one of the identifiers found. *)
Lemma surfaced_origin (query : string) (debug : bool) (st : state World)
    (papers : list Paper) (paper : Paper) :
  fst (fetch_papers esearch efetch S query debug st) = inr papers ->
  In paper papers ->
  qualifying paper = true /\
  exists article_data pmid, paper = paper_details S article_data pmid.
Proof.
  rewrite fetch_papers_run.
  destruct (fst (esearch query 20 (world st))) as [e|pmids]; [discriminate |].
  intros H Hin. injection H as <-. apply filter_In in Hin.
  destruct Hin as [Hin Hq]. split; [exact Hq |].
  destruct (successes_fetched_origin _ _ _ Hin) as [ad [p [_ Hp]]].
  now exists ad, p.
Qed.

End PipelineFacts.

Lemma qualifying_author_set (S : PySet) (article_data : ArticleT)
    (pmid : string) :
  qualifying (paper_details S article_data pmid) = true ->
  author_set S article_data <> [].
Proof.
  unfold qualifying, paper_details. cbn [Non_academic_Authors].
  intros H E. rewrite E in H. discriminate.
Qed.

(** C3. Every summary returned by a run has a non-empty author field,
    and is the extraction of a record whose set of non-academic authors is
    not empty. *)
Theorem surfaced_have_authors
    (World : Type)
    (esearch : string -> nat -> World -> result (list string) * World)
    (efetch : string -> World -> result EntrezRecord * World)
    (S : PySet) (query : string) (debug : bool) (st : state World)
    (papers : list Paper) (paper : Paper) :
  fst (fetch_papers esearch efetch S query debug st) = inr papers ->
  In paper papers ->
  Non_academic_Authors paper <> EmptyString /\
  exists article_data pmid,
    paper = paper_details S article_data pmid /\
    author_set S article_data <> [].
Proof.
  intros Hrun Hin.
  destruct (surfaced_origin _ esearch efetch S _ _ _ _ _ Hrun Hin)
    as [Hq [ad [pmid ->]]].
  split.
  - intro E. unfold qualifying in Hq. rewrite E in Hq. discriminate.
  - exists ad, pmid. split; [reflexivity |].
    now apply qualifying_author_set with (pmid := pmid).
Qed.

Lemma surfaced_have_authors_witness :
  let run :=
    fetch_papers sample_esearch sample_efetch last_seen_order "q" false
      sample_state in
  let pA := paper_details last_seen_order article_A "A" in
  let pC := paper_details last_seen_order article_C "C" in
  fst run = inr [pA; pC] /\
  In pA [pA; pC] /\
  Non_academic_Authors pA <> EmptyString /\
  exists article_data pmid,
    pA = paper_details last_seen_order article_data pmid /\
    author_set last_seen_order article_data <> [].
Proof.
  cbv zeta.
  assert (Hrun :
    fst (fetch_papers sample_esearch sample_efetch last_seen_order "q" false
           sample_state)
    = inr [ paper_details last_seen_order article_A "A";
            paper_details last_seen_order article_C "C" ])
    by (vm_compute; reflexivity).
  assert (Hin :
    In (paper_details last_seen_order article_A "A")
       [ paper_details last_seen_order article_A "A";
         paper_details last_seen_order article_C "C" ])
    by (simpl; left; reflexivity).
  split; [exact Hrun |]. split; [exact Hin |].
  exact (surfaced_have_authors nat sample_esearch sample_efetch
           last_seen_order "q" false sample_state _ _ Hrun Hin).
Defined.

(** C4. A failing search is the failure of the run.  Otherwise every
    identifier found is fetched, in search order, and the run returns, in
    that order, the summaries of the identifiers whose fetch and extraction
    did not fail and that pass the test on the author field; an identifier
    that fails contributes nothing and stops nothing. *)
Theorem partial_failure_isolation
    (World : Type)
    (esearch : string -> nat -> World -> result (list string) * World)
    (efetch : string -> World -> result EntrezRecord * World)
    (S : PySet) (query : string) (debug : bool) (st : state World) :
  let found := fst (esearch query 20 (world st)) in
  let w := snd (esearch query 20 (world st)) in
  fst (fetch_papers esearch efetch S query debug st)
  = match found with
    | inl e => inl e
    | inr pmids => inr (filter qualifying (successes (fetched efetch S w pmids)))
    end
  /\ match found with
     | inl _ => True
     | inr pmids => map fst (fetched efetch S w pmids) = pmids
     end.
Proof.
  cbv zeta. split.
  - apply fetch_papers_run.
  - destruct (fst (esearch query 20 (world st))) as [e|pmids].
    + exact I.
    + apply fetched_identifiers.
Qed.

(** C9. The debug flag does not change the value a run returns. *)
Theorem debug_flag_keeps_result
    (World : Type)
    (esearch : string -> nat -> World -> result (list string) * World)
    (efetch : string -> World -> result EntrezRecord * World)
    (S : PySet) (query : string) (st : state World) :
  fst (fetch_papers esearch efetch S query true st)
  = fst (fetch_papers esearch efetch S query false st).
Proof. now rewrite !fetch_papers_run. Qed.

(** The flag does change what is logged. *)
Example debug_flag_changes_log :
  emitted (snd (fetch_papers sample_esearch sample_efetch last_seen_order "q"
                  true sample_state))
  = [ (INFO, FetchingIds "q");
      (DEBUG, FoundIds ["A"; "B"; "C"; "D"]);
      (ERROR, ErrorFetching "B" (ServiceError "HTTP Error 400")) ].
Proof. vm_compute. reflexivity. Qed.

(** C10. In an extracted summary the author set is empty exactly when the
    affiliation set is, and an empty author set comes with an empty email;
    every summary a run returns is the extraction of a record with a
    non-empty affiliation set. *)
Theorem authors_affiliations_email_together (S : PySet) :
  (forall (article_data : ArticleT) (pmid : string),
     (author_set S article_data = [] <-> affiliation_set S article_data = []) /\
     (author_set S article_data = [] ->
      Corresponding_Author_Email (paper_details S article_data pmid)
      = EmptyString)) /\
  (forall (World : Type)
          (esearch : string -> nat -> World -> result (list string) * World)
          (efetch : string -> World -> result EntrezRecord * World)
          (query : string) (debug : bool) (st : state World)
          (papers : list Paper) (paper : Paper),
     fst (fetch_papers esearch efetch S query debug st) = inr papers ->
     In paper papers ->
     exists article_data pmid,
       paper = paper_details S article_data pmid /\
       affiliation_set S article_data <> []).
Proof.
  assert (Hiff : forall ad,
    author_set S ad = [] <-> affiliation_set S ad = []).
  { intro ad. unfold author_set, affiliation_set.
    rewrite !iter_nil_iff. apply authors_nil_iff_affiliations_nil. }
  split.
  - intros ad pmid. split; [apply Hiff |].
    unfold author_set. rewrite iter_nil_iff. intro H.
    rewrite corresponding_email_spec.
    rewrite scan_authors_spec in H. cbn [non_academic_authors] in H.
    unfold discovered_emails, scanned_affiliations.
    now rewrite (no_names_no_email _ H).
  - intros World esearch efetch query debug st papers paper Hrun Hin.
    destruct (surfaced_origin _ esearch efetch S _ _ _ _ _ Hrun Hin)
      as [Hq [ad [pmid ->]]].
    exists ad, pmid. split; [reflexivity |].
    intro E. apply Hiff in E.
    exact (qualifying_author_set S ad pmid Hq E).
Qed.

(** ** Scenarios *)

Example scenario_jane_doe :
  author_set last_seen_order article_A = ["Jane Doe"] /\
  affiliation_set last_seen_order article_A = ["Acme Pharma Inc, Cambridge"].
Proof. split; vm_compute; reflexivity. Qed.

Example scenario_university :
  author_set last_seen_order article_D = [] /\
  Non_academic_Authors (paper_details last_seen_order article_D "D")
  = EmptyString.
Proof. split; vm_compute; reflexivity. Qed.

Example scenario_same_affiliation :
  company_affiliations (scan_authors same_affiliation)
  = ["Acme Pharma Inc, Cambridge"; "Acme Pharma Inc, Cambridge"] /\
  affiliation_set last_seen_order same_affiliation
  = ["Acme Pharma Inc, Cambridge"].
Proof. split; vm_compute; reflexivity. Qed.

(** The iteration order of a set shows in the joined field. *)
Example set_order_shows_in_field :
  Non_academic_Authors (paper_details last_seen_order two_emails "1")
  = "Jane Doe, John Roe" /\
  Non_academic_Authors (paper_details reversed_order two_emails "1")
  = "John Roe, Jane Doe".
Proof. split; vm_compute; reflexivity. Qed.

(** The test of the loop reads the joined field: a record whose only
    company author has no name has the one-element author set holding the
    empty name, an empty joined field, and is not returned. *)
Example nameless_author_not_returned :
  author_set last_seen_order article_nameless = [EmptyString] /\
  qualifying (paper_details last_seen_order article_nameless "N") = false /\
  fst (fetch_papers nameless_esearch nameless_efetch last_seen_order "q" false
         {| world := tt; root_level := None; emitted := [] |})
  = inr [].
Proof. repeat split; vm_compute; reflexivity. Qed.

(** * Further properties *)

(** ** The email found in a text *)

Section EmailFacts.

Local Open Scope string_scope.










End EmailFacts.



(** ** Names *)

Section NameFacts.

Local Open Scope string_scope.









Lemma append_eq_empty (a b : string) : a ++ b = "" -> a = "" /\ b = "".
Proof. destruct a; simpl; [now split | discriminate]. Qed.

Lemma join_empty_all_empty (l : list string) :
  Py.join ", " l = "" -> forall x, In x l -> x = "".
Proof.
  unfold Py.join. destruct l as [|x [|y l]]; intros H z Hz.
  - destruct Hz.
  - simpl in H. destruct Hz as [<- | []]. exact H.
  - cbn [concat] in H. apply append_eq_empty in H.
    destruct H as [_ H]. discriminate.
Qed.

Lemma join_nonempty_iff (l : list string) :
  NoDup l ->
  (Py.join ", " l <> "" <-> exists x, In x l /\ x <> "").
Proof.
  intro Hnd. split.
  - destruct l as [|x [|y l]]; intro H.
    + now destruct H.
    + exists x. split; [now left | exact H].
    + destruct (string_dec x "") as [-> | Hx].
      * exists y. split; [right; now left |].
        intros ->. inversion Hnd as [|? ? Hnot _]. apply Hnot. now left.
      * exists x. split; [now left | exact Hx].
  - intros [x [Hin Hx]] H. exact (Hx (join_empty_all_empty l H x Hin)).
Qed.

Lemma truthy_iff (s : string) : Py.truthy s = true <-> s <> "".
Proof. destruct s; simpl; split; congruence. Qed.

End NameFacts.


(** X4. A summary passes the test of the pipeline exactly when some author
    of the record has an affiliation classified non-academic and a
    non-empty display name. *)
Theorem qualifying_iff_named_author
    (S : PySet) (article_data : ArticleT) (pmid : string) :
  qualifying (paper_details S article_data pmid) = true <->
  exists author aff_text,
    In author (authors_of article_data) /\
    In aff_text (affiliation_texts author) /\
    is_non_academic_affiliation aff_text = true /\
    fullname author <> EmptyString.
Proof.
  unfold qualifying, paper_details. cbn [Non_academic_Authors].
  rewrite truthy_iff, join_nonempty_iff by apply iter_NoDup.
  unfold author_set. rewrite scan_authors_spec. cbn [non_academic_authors].
  split.
  - intros [name [Hin Hname]]. apply iter_In, in_flat_map in Hin.
    destruct Hin as [author [Hauthor Hin]]. unfold names_of in Hin.
    apply in_map_iff in Hin. destruct Hin as [aff [<- Haff]].
    apply filter_In in Haff. destruct Haff as [Haff Hc].
    now exists author, aff.
  - intros [author [aff [Hauthor [Haff [Hc Hname]]]]].
    exists (fullname author). split; [| exact Hname].
    apply iter_In, in_flat_map. exists author. split; [exact Hauthor |].
    unfold names_of. apply in_map_iff. exists aff. split; [reflexivity |].
    apply filter_In. now split.
Qed.

(** ** The collected lists *)

Section CollectFacts.

Lemma filter_flat_map {A B} (p : B -> bool) (g : A -> list B) (l : list A) :
  filter p (flat_map g l) = flat_map (fun x => filter p (g x)) l.
Proof.
  induction l as [|x l IH]; simpl; [reflexivity |].
  now rewrite filter_app, IH.
Qed.

Lemma combine_append {A B} (a1 a2 : list A) (b1 b2 : list B) :
  length a1 = length b1 ->
  combine (a1 ++ a2) (b1 ++ b2) = combine a1 b1 ++ combine a2 b2.
Proof.
  revert b1. induction a1 as [|x a1 IH]; intros [|y b1] H;
    try discriminate; simpl.
  - reflexivity.
  - injection H as H. now rewrite IH.
Qed.

Lemma combine_names (author : AuthorT) :
  combine (names_of author)
          (filter is_non_academic_affiliation (affiliation_texts author))
  = pairs_of author.
Proof.
  unfold names_of, pairs_of.
  induction (filter is_non_academic_affiliation (affiliation_texts author))
    as [|t l IH]; simpl; [reflexivity | now rewrite IH].
Qed.

Lemma combine_collected (authors : list AuthorT) :
  combine (flat_map names_of authors)
          (flat_map (fun a => filter is_non_academic_affiliation
                                     (affiliation_texts a)) authors)
  = flat_map pairs_of authors.
Proof.
  induction authors as [|a authors IH]; simpl; [reflexivity |].
  rewrite combine_append, combine_names, IH; [reflexivity |].
  unfold names_of. apply length_map.
Qed.

End CollectFacts.

(** X5. When the author loop ends, the affiliation list holds the scanned
    affiliation texts classified non-academic, in scanning order and with
    their repetitions, and the name list runs in parallel with it: entry by
    entry, the name is that of the author the affiliation belongs to. *)
Theorem collected_in_lockstep (article_data : ArticleT) :
  let scan := scan_authors article_data in
  company_affiliations scan
  = filter is_non_academic_affiliation (scanned_affiliations article_data) /\
  length (non_academic_authors scan) = length (company_affiliations scan) /\
  combine (non_academic_authors scan) (company_affiliations scan)
  = flat_map pairs_of (authors_of article_data).
Proof.
  cbv zeta. rewrite scan_authors_spec.
  cbn [non_academic_authors company_affiliations].
  split; [| split].
  - unfold scanned_affiliations. now rewrite filter_flat_map.
  - apply names_affiliations_length.
  - apply combine_collected.
Qed.

(** ** The keyword table *)

Section KeywordFacts.

Lemma contains_trans (a b s : string) :
  Py.contains a b = true -> Py.contains b s = true -> Py.contains a s = true.
Proof.
  rewrite !contains_spec.
  intros [p1 [q1 ->]] [p2 [q2 ->]].
  exists (p2 ++ p1)%string, (q1 ++ q2)%string.
  now rewrite !append_assoc.
Qed.

End KeywordFacts.

Ltac in_list := solve [simpl; repeat (first [left; reflexivity | right])].

(** X6. Three non-academic keywords never decide: "company" and "corp"
    hold "co" and "laboratories" holds "lab", so the classifier answers the
    same with the eleven other keywords alone. *)
Theorem redundant_keywords (affiliation : string) :
  is_non_academic_affiliation affiliation
  = Py.any (fun k => Py.contains k (Py.lower affiliation))
           core_non_academic_keywords &&
    negb (Py.any (fun k => Py.contains k (Py.lower affiliation))
                 academic_keywords).
Proof.
  unfold is_non_academic_affiliation. f_equal.
  apply eq_iff_eq_true. unfold Py.any. rewrite !existsb_exists. split.
  - intros [k [Hin Hk]]. unfold non_academic_keywords in Hin.
    repeat (destruct Hin as [<- | Hin]); try destruct Hin;
      first
        [ eexists; split; [| exact Hk]; in_list
        | exists "co"; split; [in_list |];
          eapply contains_trans; [| exact Hk]; reflexivity
        | exists "lab"; split; [in_list |];
          eapply contains_trans; [| exact Hk]; reflexivity ].
  - intros [k [Hin Hk]]. exists k. split; [| exact Hk].
    unfold core_non_academic_keywords in Hin.
    repeat (destruct Hin as [<- | Hin]); try destruct Hin; in_list.
Qed.

(** ** The state a run leaves *)

Section RunFacts.

Variable World : Type.
Variable esearch : string -> nat -> World -> result (list string) * World.
Variable efetch : string -> World -> result EntrezRecord * World.
Variable S : PySet.

Lemma error_passes (r : level) : (levelno r <=? levelno ERROR) = true.
Proof. now destruct r. Qed.

Lemma basicConfig_run (l : level) (st : state World) :
  basicConfig l st
  = (inr tt,
     {| world := world st;
        root_level := Some (match root_level st with
                            | Some r => r
                            | None => l
                            end);
        emitted := emitted st |}).
Proof.
  unfold basicConfig. destruct st as [w [r|] em]; reflexivity.
Qed.

Lemma log_run (l : level) (m : message) (st : state World) (r : level) :
  root_level st = Some r ->
  log l m st
  = (inr tt,
     {| world := world st;
        root_level := Some r;
        emitted := emitted st ++ record_if r l m |}).
Proof.
  intro H. unfold log, record_if. rewrite H.
  destruct (levelno r <=? levelno l); [reflexivity |].
  now rewrite app_nil_r.
Qed.

Lemma fetch_one_state (papers : list Paper) (pmid : string)
    (st : state World) (r : level) :
  root_level st = Some r ->
  snd (fetch_one efetch S papers pmid st)
  = {| world := snd (efetch pmid (world st));
       root_level := Some r;
       emitted :=
         emitted st ++
         failure_records
           [(pmid, details_of S pmid (fst (efetch pmid (world st))))] |}.
Proof.
  intro H. unfold fetch_one, try_except, bind.
  rewrite fetch_paper_details_run.
  destruct (details_of S pmid (fst (efetch pmid (world st)))) as [e|paper].
  - rewrite (log_run _ _ _ r) by exact H.
    cbn [snd fst world emitted failure_records flat_map ret].
    unfold record_if. rewrite error_passes, app_nil_r. reflexivity.
  - cbn [snd fst ret failure_records flat_map].
    now rewrite app_nil_r, H.
Qed.

Lemma fetch_one_value (papers : list Paper) (pmid : string) (st : state World) :
  exists papers', fst (fetch_one efetch S papers pmid st) = inr papers'.
Proof. destruct (fetch_one_run _ efetch S papers pmid st) as [H _]. eauto. Qed.

Lemma for_pmids_state (pmids : list string) :
  forall (papers : list Paper) (st : state World) (r : level),
    root_level st = Some r ->
    snd (for_pmids efetch S pmids papers st)
    = {| world := fold_left (fun w pmid => snd (efetch pmid w)) pmids (world st);
         root_level := Some r;
         emitted :=
           emitted st ++ failure_records (fetched efetch S (world st) pmids) |}.
Proof.
  induction pmids as [|pmid rest IH]; intros papers st r H.
  - cbn. rewrite app_nil_r, <- H. now destruct st.
  - cbn [for_pmids fetched fold_left]. unfold bind.
    pose proof (fetch_one_state papers pmid st r H) as Hst.
    destruct (fetch_one_value papers pmid st) as [papers' Hval].
    destruct (fetch_one efetch S papers pmid st) as [v st'].
    cbn [fst snd] in Hst, Hval. subst v st'.
    rewrite (IH _ _ r) by reflexivity. cbn [world emitted].
    destruct (efetch pmid (world st)) as [a w']. cbn [fst snd].
    unfold failure_records. cbn [flat_map fst snd].
    now rewrite app_nil_r, <- app_assoc.
Qed.

(** The state after a whole run. *)
Lemma fetch_papers_state (query : string) (debug : bool) (st : state World) :
  snd (fetch_papers esearch efetch S query debug st)
  = let lvl := effective_level (root_level st) debug in
    let found := fst (esearch query 20 (world st)) in
    let w := snd (esearch query 20 (world st)) in
    {| world :=
         match found with
         | inl _ => w
         | inr pmids => fold_left (fun w pmid => snd (efetch pmid w)) pmids w
         end;
       root_level := Some lvl;
       emitted :=
         emitted st ++ record_if lvl INFO (FetchingIds query) ++
         match found with
         | inl _ => []
         | inr pmids =>
             record_if lvl DEBUG (FoundIds pmids) ++
             failure_records (fetched efetch S w pmids)
         end |}.
Proof.
  cbv zeta. unfold fetch_papers, fetch_pubmed_ids, bind, call.
  assert (Hcfg :
    (if debug then basicConfig DEBUG else basicConfig INFO) st
    = (inr tt,
       {| world := world st;
          root_level := Some (effective_level (root_level st) debug);
          emitted := emitted st |})).
  { destruct debug; rewrite basicConfig_run; unfold effective_level;
      destruct (root_level st); reflexivity. }
  rewrite Hcfg.
  set (lvl := effective_level (root_level st) debug).
  rewrite (log_run _ _ _ lvl) by reflexivity. cbn [world root_level emitted].
  destruct (esearch query 20 (world st)) as [[e|pmids] w]; cbn [fst snd].
  - now rewrite app_nil_r.
  - rewrite (log_run _ _ _ lvl) by reflexivity.
    rewrite (for_pmids_state _ _ _ lvl) by reflexivity.
    cbn [world emitted]. now rewrite <- !app_assoc.
Qed.

Lemma details_of_pmid (pmid : string) (r : result EntrezRecord) (paper : Paper) :
  details_of S pmid r = inr paper -> PubmedID paper = pmid.
Proof.
  unfold details_of, and_then. destruct r as [e|record]; [discriminate |].
  destruct (article_data_of record); [discriminate |].
  intro H. now injection H as <-.
Qed.

Lemma returned_ids_subsequence (pmids : list string) :
  forall w,
    subsequence
      (map PubmedID (filter qualifying (successes (fetched efetch S w pmids))))
      pmids.
Proof.
  induction pmids as [|pmid rest IH]; intro w; cbn [fetched].
  - constructor.
  - destruct (efetch pmid w) as [r w']. unfold successes.
    cbn [flat_map snd]. fold (successes (fetched efetch S w' rest)).
    destruct (details_of S pmid r) as [e|paper] eqn:E; cbn [app filter].
    + apply subsequence_skip, IH.
    + destruct (qualifying paper); cbn [map].
      * rewrite (details_of_pmid _ _ _ E). apply subsequence_keep, IH.
      * apply subsequence_skip, IH.
Qed.

End RunFacts.

Lemma subsequence_length {A} (l1 l2 : list A) :
  subsequence l1 l2 -> length l1 <= length l2.
Proof. induction 1; simpl; lia. Qed.

Lemma subsequence_incl {A} (l1 l2 : list A) :
  subsequence l1 l2 -> forall x, In x l1 -> In x l2.
Proof.
  induction 1 as [|y l1 l2 _ IH|y l1 l2 _ IH]; intros x Hx.
  - destruct Hx.
  - right. now apply IH.
  - destruct Hx as [<- | Hx]; [now left | right; now apply IH].
Qed.

(** X7. [fetch_paper_details] returns a summary exactly when the fetch
    service answers with a record whose first PubmedArticle entry has a
    MedlineCitation holding an Article, and the summary is the extraction
    of that Article; a failure of the service is raised as it is, an empty
    PubmedArticle list raises IndexError and a missing one KeyError.  In
    every case the log and its level are left as they were. *)
Theorem fetch_paper_details_outcome
    (World : Type)
    (efetch : string -> World -> result EntrezRecord * World)
    (S : PySet) (pmid : string) (st : state World) :
  let answer := fst (efetch pmid (world st)) in
  let run := fetch_paper_details efetch S pmid st in
  (forall paper,
     fst run = inr paper <->
     exists record article others medline article_data,
       answer = inr record /\
       PubmedArticle record = Some (article :: others) /\
       MedlineCitation article = Some medline /\
       Article medline = Some article_data /\
       paper = paper_details S article_data pmid) /\
  (forall e, answer = inl e -> fst run = inl e) /\
  (forall record,
     answer = inr record -> PubmedArticle record = Some [] ->
     fst run = inl IndexError) /\
  (forall record,
     answer = inr record -> PubmedArticle record = None ->
     fst run = inl (KeyError "PubmedArticle")) /\
  emitted (snd run) = emitted st /\
  root_level (snd run) = root_level st /\
  world (snd run) = snd (efetch pmid (world st)).
Proof.
  cbv zeta. rewrite fetch_paper_details_run. cbn [fst snd].
  repeat split; try reflexivity.
  - unfold details_of, and_then, article_data_of, getitem, first.
    destruct (fst (efetch pmid (world st))) as [e|record]; [discriminate |].
    destruct record as [[[|[[[[ad|]]|]] others]|]]; cbn; try discriminate.
    intro H. injection H as <-.
    now eexists _, _, _, _, _.
  - intros [record [article [others [medline [ad [-> [H1 [H2 [H3 ->]]]]]]]]].
    unfold details_of, article_data_of, getitem, first.
    cbn [and_then]. rewrite H1. cbn [and_then]. rewrite H2. cbn [and_then].
    now rewrite H3.
  - intros e ->. reflexivity.
  - intros record -> H. unfold details_of, and_then, article_data_of.
    now rewrite H.
  - intros record -> H. unfold details_of, and_then, article_data_of.
    now rewrite H.
Qed.

(** X8. A run calls the search service once; when the search fails it
    calls nothing else, and otherwise it calls the fetch service once for
    each identifier found, in search order, whether or not earlier
    identifiers failed. *)
Theorem one_fetch_per_identifier
    (World : Type)
    (esearch : string -> nat -> World -> result (list string) * World)
    (efetch : string -> World -> result EntrezRecord * World)
    (S : PySet) (query : string) (debug : bool) (st : state World) :
  world (snd (fetch_papers esearch efetch S query debug st))
  = match fst (esearch query 20 (world st)) with
    | inl _ => snd (esearch query 20 (world st))
    | inr pmids =>
        fold_left (fun w pmid => snd (efetch pmid w)) pmids
                  (snd (esearch query 20 (world st)))
    end.
Proof. rewrite fetch_papers_state. cbv zeta. reflexivity. Qed.


(** X10. Once the root logger has a handler, the debug flag changes
    nothing: the value, the log and the world of the run are the same with
    and without it. *)
Theorem configured_logger_ignores_debug
    (World : Type)
    (esearch : string -> nat -> World -> result (list string) * World)
    (efetch : string -> World -> result EntrezRecord * World)
    (S : PySet) (query : string) (st : state World) (r : level) :
  root_level st = Some r ->
  fetch_papers esearch efetch S query true st
  = fetch_papers esearch efetch S query false st.
Proof.
  intro H. apply injective_projections.
  - now rewrite !fetch_papers_run.
  - rewrite !fetch_papers_state, H. reflexivity.
Qed.

Lemma configured_logger_ignores_debug_witness :
  root_level configured_state = Some WARNING /\
  fetch_papers sample_esearch sample_efetch last_seen_order "q" true
    configured_state
  = fetch_papers sample_esearch sample_efetch last_seen_order "q" false
      configured_state.
Proof.
  split; [reflexivity |].
  exact (configured_logger_ignores_debug nat sample_esearch sample_efetch
           last_seen_order "q" configured_state WARNING eq_refl).
Defined.

(** X11. The identifiers of the summaries a run returns form a subsequence
    of the search result: each is an identifier the search found, they come
    in the order the search gave them, and a run returns at most as many
    summaries as identifiers found. *)
Theorem returned_ids_in_search_order
    (World : Type)
    (esearch : string -> nat -> World -> result (list string) * World)
    (efetch : string -> World -> result EntrezRecord * World)
    (S : PySet) (query : string) (debug : bool) (st : state World)
    (pmids : list string) (papers : list Paper) :
  fst (esearch query 20 (world st)) = inr pmids ->
  fst (fetch_papers esearch efetch S query debug st) = inr papers ->
  subsequence (map PubmedID papers) pmids /\
  length papers <= length pmids /\
  (forall paper, In paper papers -> In (PubmedID paper) pmids).
Proof.
  intros Hsearch Hrun. rewrite fetch_papers_run, Hsearch in Hrun.
  injection Hrun as <-.
  pose proof (returned_ids_subsequence _ efetch S pmids
                (snd (esearch query 20 (world st)))) as Hsub.
  split; [exact Hsub |]. split.
  - apply subsequence_length in Hsub. now rewrite length_map in Hsub.
  - intros paper Hin. apply (subsequence_incl _ _ Hsub).
    now apply in_map.
Qed.

Lemma returned_ids_in_search_order_witness :
  let papers := [ paper_details last_seen_order article_A "A";
                  paper_details last_seen_order article_C "C" ] in
  fst (sample_esearch "q" 20 (world sample_state)) = inr ["A"; "B"; "C"; "D"] /\
  fst (fetch_papers sample_esearch sample_efetch last_seen_order "q" false
         sample_state) = inr papers /\
  subsequence (map PubmedID papers) ["A"; "B"; "C"; "D"] /\
  length papers <= 4 /\
  (forall paper, In paper papers -> In (PubmedID paper) ["A"; "B"; "C"; "D"]).
Proof.
  cbv zeta.
  assert (Hsearch :
    fst (sample_esearch "q" 20 (world sample_state))
    = inr ["A"; "B"; "C"; "D"]) by reflexivity.
  assert (Hrun :
    fst (fetch_papers sample_esearch sample_efetch last_seen_order "q" false
           sample_state)
    = inr [ paper_details last_seen_order article_A "A";
            paper_details last_seen_order article_C "C" ])
    by (vm_compute; reflexivity).
  split; [exact Hsearch |]. split; [exact Hrun |].
  exact (returned_ids_in_search_order nat sample_esearch sample_efetch
           last_seen_order "q" false sample_state _ _ Hsearch Hrun).
Defined.

(** ** The command line *)

Section CliFacts.

Variable World : Type.
Variable esearch : string -> nat -> World -> result (list string) * World.
Variable efetch : string -> World -> result EntrezRecord * World.
Variable S : PySet.
Variable fopen : string -> World -> result unit * World.

Lemma fold_append {A B} (f : A -> B) (l : list A) :
  forall out, fold_left (fun o x => o ++ [f x]) l out = out ++ map f l.
Proof.
  induction l as [|x l IH]; intro out; simpl.
  - now rewrite app_nil_r.
  - now rewrite IH, <- app_assoc.
Qed.

Lemma main_after_run (args : Args) (cs : cli_state World)
    (papers : list Paper) :
  fst (fetch_papers esearch efetch S (args_query args) (args_debug args)
         (run_state cs)) = inr papers ->
  main esearch efetch S fopen args cs
  = let st := snd (fetch_papers esearch efetch S (args_query args)
                     (args_debug args) (run_state cs)) in
    match args_file args with
    | Some file =>
        if Py.truthy file then save_csv fopen file papers st (outputs cs)
        else print_papers papers st (outputs cs)
    | None => print_papers papers st (outputs cs)
    end.
Proof.
  intro H. unfold main.
  destruct (fetch_papers esearch efetch S (args_query args) (args_debug args)
              (run_state cs)) as [v st].
  cbn [fst snd] in *. now subst v.
Qed.

End CliFacts.

(** X12. When the search fails, [main] fails with the same error before
    anything is opened, written or printed, and without a call to the
    fetch service. *)
Theorem main_search_failure
    (World : Type)
    (esearch : string -> nat -> World -> result (list string) * World)
    (efetch : string -> World -> result EntrezRecord * World)
    (S : PySet) (fopen : string -> World -> result unit * World)
    (args : Args) (cs : cli_state World) (e : exn) :
  fst (esearch (args_query args) 20 (world (run_state cs))) = inl e ->
  fst (main esearch efetch S fopen args cs) = inl e /\
  outputs (snd (main esearch efetch S fopen args cs)) = outputs cs /\
  world (run_state (snd (main esearch efetch S fopen args cs)))
  = snd (esearch (args_query args) 20 (world (run_state cs))).
Proof.
  intro H. unfold main.
  pose proof (fetch_papers_run _ esearch efetch S (args_query args)
                (args_debug args) (run_state cs)) as Hval.
  pose proof (fetch_papers_state _ esearch efetch S (args_query args)
                (args_debug args) (run_state cs)) as Hst.
  cbv zeta in Hst. rewrite H in Hval, Hst.
  destruct (fetch_papers esearch efetch S (args_query args) (args_debug args)
              (run_state cs)) as [v st].
  cbn [fst snd] in Hval, Hst. subst v st. repeat split.
Qed.

Lemma main_search_failure_witness :
  let args := {| args_query := "q"; args_debug := false;
                 args_file := Some "out.csv" |} in
  fst (failing_esearch "q" 20 (world (run_state sample_cli_state)))
  = inl (ServiceError "URLError") /\
  fst (main failing_esearch sample_efetch last_seen_order sample_fopen args
         sample_cli_state) = inl (ServiceError "URLError") /\
  outputs (snd (main failing_esearch sample_efetch last_seen_order
                  sample_fopen args sample_cli_state)) = [] /\
  world (run_state (snd (main failing_esearch sample_efetch last_seen_order
                           sample_fopen args sample_cli_state)))
  = 0.
Proof.
  cbv zeta. split; [reflexivity |].
  exact (main_search_failure nat failing_esearch sample_efetch last_seen_order
           sample_fopen
           {| args_query := "q"; args_debug := false;
              args_file := Some "out.csv" |}
           sample_cli_state (ServiceError "URLError") eq_refl).
Defined.

(** X13. With a non-empty file name and a file that opens, [main] opens
    the file once the run is over, writes the header row and then one row
    for each summary returned, in order, each row holding the six values in
    the order of the header, closes the file and prints the confirmation;
    the header is written even when no summary is returned. *)
Theorem main_writes_csv
    (World : Type)
    (esearch : string -> nat -> World -> result (list string) * World)
    (efetch : string -> World -> result EntrezRecord * World)
    (S : PySet) (fopen : string -> World -> result unit * World)
    (args : Args) (cs : cli_state World)
    (file : string) (papers : list Paper) (u : unit) :
  args_file args = Some file ->
  file <> EmptyString ->
  fst (fetch_papers esearch efetch S (args_query args) (args_debug args)
         (run_state cs)) = inr papers ->
  fst (fopen file
         (world (snd (fetch_papers esearch efetch S (args_query args)
                        (args_debug args) (run_state cs))))) = inr u ->
  fst (main esearch efetch S fopen args cs) = inr tt /\
  outputs (snd (main esearch efetch S fopen args cs))
  = outputs cs ++
    [Opened file; Row fieldnames] ++
    map (fun paper => Row (row_of paper)) papers ++
    [Closed file; Printed (SavedResults file)] /\
  Forall (fun paper => length (row_of paper) = length fieldnames) papers.
Proof.
  intros Hfile Hname Hrun Hopen.
  rewrite (main_after_run _ esearch efetch S fopen args cs papers Hrun).
  cbv zeta. rewrite Hfile.
  apply truthy_iff in Hname. rewrite Hname. unfold save_csv.
  destruct (fopen file _) as [[e|u'] w]; cbn [fst] in Hopen; [discriminate |].
  cbn [fst snd outputs]. split; [reflexivity |]. split.
  - rewrite fold_append, <- !app_assoc. reflexivity.
  - apply Forall_forall. intros paper _. reflexivity.
Qed.

Lemma main_writes_csv_witness :
  let args := {| args_query := "q"; args_debug := false;
                 args_file := Some "out.csv" |} in
  let pA := paper_details last_seen_order article_A "A" in
  let pC := paper_details last_seen_order article_C "C" in
  fst (main sample_esearch sample_efetch last_seen_order sample_fopen args
         sample_cli_state) = inr tt /\
  outputs (snd (main sample_esearch sample_efetch last_seen_order sample_fopen
                  args sample_cli_state))
  = [] ++ [Opened "out.csv"; Row fieldnames] ++
    map (fun paper => Row (row_of paper)) [pA; pC] ++
    [Closed "out.csv"; Printed (SavedResults "out.csv")] /\
  Forall (fun paper => length (row_of paper) = length fieldnames) [pA; pC].
Proof.
  cbv zeta.
  assert (Hrun :
    fst (fetch_papers sample_esearch sample_efetch last_seen_order "q" false
           sample_state)
    = inr [ paper_details last_seen_order article_A "A";
            paper_details last_seen_order article_C "C" ])
    by (vm_compute; reflexivity).
  assert (Hname : "out.csv" <> EmptyString) by discriminate.
  exact (main_writes_csv nat sample_esearch sample_efetch last_seen_order
           sample_fopen
           {| args_query := "q"; args_debug := false;
              args_file := Some "out.csv" |}
           sample_cli_state "out.csv" _ tt eq_refl Hname Hrun eq_refl).
Defined.

(** X14. Without a file name, or with the empty file name, [main] opens
    nothing and prints the summaries returned, one by one and in order. *)
Theorem main_prints_to_console
    (World : Type)
    (esearch : string -> nat -> World -> result (list string) * World)
    (efetch : string -> World -> result EntrezRecord * World)
    (S : PySet) (fopen : string -> World -> result unit * World)
    (args : Args) (cs : cli_state World) (papers : list Paper) :
  args_file args = None \/ args_file args = Some EmptyString ->
  fst (fetch_papers esearch efetch S (args_query args) (args_debug args)
         (run_state cs)) = inr papers ->
  main esearch efetch S fopen args cs
  = (inr tt,
     {| run_state := snd (fetch_papers esearch efetch S (args_query args)
                            (args_debug args) (run_state cs));
        outputs := outputs cs ++
                   map (fun paper => Printed (PaperLine paper)) papers |}).
Proof.
  intros Hfile Hrun.
  rewrite (main_after_run _ esearch efetch S fopen args cs papers Hrun).
  cbv zeta. unfold print_papers. rewrite fold_append.
  destruct Hfile as [-> | ->]; reflexivity.
Qed.

Lemma main_prints_to_console_witness :
  let args := {| args_query := "q"; args_debug := false;
                 args_file := Some EmptyString |} in
  let pA := paper_details last_seen_order article_A "A" in
  let pC := paper_details last_seen_order article_C "C" in
  main sample_esearch sample_efetch last_seen_order sample_fopen args
    sample_cli_state
  = (inr tt,
     {| run_state := snd (fetch_papers sample_esearch sample_efetch
                            last_seen_order "q" false sample_state);
        outputs := [] ++ map (fun paper => Printed (PaperLine paper))
                             [pA; pC] |}).
Proof.
  cbv zeta.
  assert (Hrun :
    fst (fetch_papers sample_esearch sample_efetch last_seen_order "q" false
           sample_state)
    = inr [ paper_details last_seen_order article_A "A";
            paper_details last_seen_order article_C "C" ])
    by (vm_compute; reflexivity).
  exact (main_prints_to_console nat sample_esearch sample_efetch
           last_seen_order sample_fopen
           {| args_query := "q"; args_debug := false;
              args_file := Some EmptyString |}
           sample_cli_state _ (or_intror eq_refl) Hrun).
Defined.

(** X15. When the file cannot be opened, [main] fails with the error of
    [open] after the run is over: no row is written and no confirmation is
    printed. *)
Theorem main_open_failure
    (World : Type)
    (esearch : string -> nat -> World -> result (list string) * World)
    (efetch : string -> World -> result EntrezRecord * World)
    (S : PySet) (fopen : string -> World -> result unit * World)
    (args : Args) (cs : cli_state World)
    (file : string) (papers : list Paper) (e : exn) :
  args_file args = Some file ->
  file <> EmptyString ->
  fst (fetch_papers esearch efetch S (args_query args) (args_debug args)
         (run_state cs)) = inr papers ->
  fst (fopen file
         (world (snd (fetch_papers esearch efetch S (args_query args)
                        (args_debug args) (run_state cs))))) = inl e ->
  fst (main esearch efetch S fopen args cs) = inl e /\
  outputs (snd (main esearch efetch S fopen args cs)) = outputs cs /\
  emitted (run_state (snd (main esearch efetch S fopen args cs)))
  = emitted (snd (fetch_papers esearch efetch S (args_query args)
                    (args_debug args) (run_state cs))).
Proof.
  intros Hfile Hname Hrun Hopen.
  rewrite (main_after_run _ esearch efetch S fopen args cs papers Hrun).
  cbv zeta. rewrite Hfile.
  apply truthy_iff in Hname. rewrite Hname. unfold save_csv.
  destruct (fopen file _) as [[e'|u] w]; cbn [fst] in Hopen; [| discriminate].
  injection Hopen as ->. repeat split.
Qed.

Lemma main_open_failure_witness :
  let args := {| args_query := "q"; args_debug := false;
                 args_file := Some "out.csv" |} in
  fst (main sample_esearch sample_efetch last_seen_order failing_fopen args
         sample_cli_state) = inl (ServiceError "Permission denied") /\
  outputs (snd (main sample_esearch sample_efetch last_seen_order
                  failing_fopen args sample_cli_state)) = [] /\
  emitted (run_state (snd (main sample_esearch sample_efetch last_seen_order
                             failing_fopen args sample_cli_state)))
  = emitted (snd (fetch_papers sample_esearch sample_efetch last_seen_order
                    "q" false sample_state)).
Proof.
  cbv zeta.
  assert (Hrun :
    fst (fetch_papers sample_esearch sample_efetch last_seen_order "q" false
           sample_state)
    = inr [ paper_details last_seen_order article_A "A";
            paper_details last_seen_order article_C "C" ])
    by (vm_compute; reflexivity).
  assert (Hname : "out.csv" <> EmptyString) by discriminate.
  exact (main_open_failure nat sample_esearch sample_efetch last_seen_order
           failing_fopen
           {| args_query := "q"; args_debug := false;
              args_file := Some "out.csv" |}
           sample_cli_state "out.csv" _ (ServiceError "Permission denied")
           eq_refl Hname Hrun eq_refl).
Defined.

(** ** More on one text and on one summary *)



Lemma classified_not_empty (aff_text : string) :
  is_non_academic_affiliation aff_text = true -> aff_text <> EmptyString.
Proof. intros H ->. discriminate. Qed.

(** X17. Every summary a run returns has a non-empty affiliation field. *)
Theorem returned_have_affiliation_field
    (World : Type)
    (esearch : string -> nat -> World -> result (list string) * World)
    (efetch : string -> World -> result EntrezRecord * World)
    (S : PySet) (query : string) (debug : bool) (st : state World)
    (papers : list Paper) (paper : Paper) :
  fst (fetch_papers esearch efetch S query debug st) = inr papers ->
  In paper papers ->
  Company_Affiliations paper <> EmptyString.
Proof.
  intros Hrun Hin.
  destruct (surfaced_origin _ esearch efetch S _ _ _ _ _ Hrun Hin)
    as [Hq [ad [pmid ->]]].
  pose proof (qualifying_author_set S ad pmid Hq) as Hauthors.
  unfold paper_details. cbn [Company_Affiliations].
  apply join_nonempty_iff; [apply iter_NoDup |].
  unfold author_set in Hauthors. rewrite iter_nil_iff in Hauthors.
  rewrite authors_nil_iff_affiliations_nil in Hauthors.
  destruct (company_affiliations (scan_authors ad)) as [|a l] eqn:E;
    [now destruct Hauthors |].
  assert (Ha : In a (company_affiliations (scan_authors ad)))
    by (rewrite E; now left).
  exists a. split.
  - unfold affiliation_set. now apply iter_In.
  - apply company_affiliations_In in Ha. destruct Ha as [_ Hc].
    now apply classified_not_empty.
Qed.

Lemma returned_have_affiliation_field_witness :
  let pA := paper_details last_seen_order article_A "A" in
  let pC := paper_details last_seen_order article_C "C" in
  fst (fetch_papers sample_esearch sample_efetch last_seen_order "q" false
         sample_state) = inr [pA; pC] /\
  In pC [pA; pC] /\
  Company_Affiliations pC <> EmptyString.
Proof.
  cbv zeta.
  assert (Hrun :
    fst (fetch_papers sample_esearch sample_efetch last_seen_order "q" false
           sample_state)
    = inr [ paper_details last_seen_order article_A "A";
            paper_details last_seen_order article_C "C" ])
    by (vm_compute; reflexivity).
  assert (Hin :
    In (paper_details last_seen_order article_C "C")
       [ paper_details last_seen_order article_A "A";
         paper_details last_seen_order article_C "C" ])
    by (simpl; right; left; reflexivity).
  split; [exact Hrun |]. split; [exact Hin |].
  exact (returned_have_affiliation_field nat sample_esearch sample_efetch
           last_seen_order "q" false sample_state _ _ Hrun Hin).
Defined.
